(** * Stripe-Checker: the mode dispatcher, the probes, the scanner and the reporter

    A shallow embedding of [stripeChecker.py].  Python values are a small
    inductive universe, dictionaries are association lists in insertion
    order, and every effect the script performs (console output, HTTP
    requests, the pause, the report file, the table) is an entry of an
    explicit trace.  Exceptions are values of a result type, so that
    [try]/[except] blocks are ordinary functions.  What the libraries
    around the script may refuse (console markup in text from outside,
    the writing of the file, a pause beyond the range of the clock, an
    integer too long for text) belongs to the world a run happens in,
    and every property holds for every such world. *)

From Stdlib Require Import ZArith List String Ascii Bool Lia.
From Stdlib Require Import DecimalString DecimalZ DecimalN DecimalPos DecimalFacts Nnat.
Import ListNotations.

Set Warnings "-register-all".
Local Open Scope list_scope.
Local Open Scope string_scope.

(* ================================================================= *)
(** ** Host-language values *)

Module Py.

(** The values that reach the script: [None], booleans, integers, text,
    lists and string-keyed dictionaries (what [response.json()] yields,
    floats left out).  Text is a sequence of code points below 256. *)
Inductive pyval : Type :=
| PNone
| PBool (b : bool)
| PInt (z : Z)
| PStr (s : string)
| PList (l : list pyval)
| PDict (d : list (string * pyval)).

Definition dict := list (string * pyval).

(** [d.get(k)] as an option, [k in d], and [d[k] = v]. *)
Fixpoint dict_find {A : Type} (k : string) (d : list (string * A)) : option A :=
  match d with
  | [] => None
  | (k', v) :: d' => if String.eqb k k' then Some v else dict_find k d'
  end.

Definition dict_mem {A : Type} (k : string) (d : list (string * A)) : bool :=
  match dict_find k d with Some _ => true | None => false end.

Definition dict_get {A : Type} (k : string) (default : A) (d : list (string * A)) : A :=
  match dict_find k d with Some v => v | None => default end.

Fixpoint dict_set {A : Type} (k : string) (v : A) (d : list (string * A))
  : list (string * A) :=
  match d with
  | [] => [(k, v)]
  | (k', v') :: d' =>
      if String.eqb k k' then (k, v) :: d' else (k', v') :: dict_set k v d'
  end.

(** Truth value of an object, as [if x] and [not x] test it. *)
Definition truthy (v : pyval) : bool :=
  match v with
  | PNone => false
  | PBool b => b
  | PInt z => negb (Z.eqb z 0)
  | PStr s => negb (String.eqb s "")
  | PList l => match l with [] => false | _ => true end
  | PDict d => match d with [] => false | _ => true end
  end.

Definition type_name (v : pyval) : string :=
  match v with
  | PNone => "NoneType"
  | PBool _ => "bool"
  | PInt _ => "int"
  | PStr _ => "str"
  | PList _ => "list"
  | PDict _ => "dict"
  end.

(** *** Integers as text *)

Definition str_of_int (z : Z) : string := NilZero.string_of_int (Z.to_int z).

Fixpoint zeros (n : nat) : string :=
  match n with O => "" | S n' => String "0" (zeros n') end.

Definition zfill (width : nat) (s : string) : string :=
  zeros (width - String.length s) ++ s.

(** The format specification [010]: sign-aware zero padding to a total
    width of ten; longer numbers are not truncated. *)
Definition format_010 (z : Z) : string :=
  if (z <? 0)%Z
  then String "-" (zfill 9 (NilZero.string_of_uint (N.to_uint (Z.abs_N z))))
  else zfill 10 (NilZero.string_of_uint (N.to_uint (Z.abs_N z))).

(** *** Characters *)

Definition dquote : ascii := "034"%char.
Definition squote : ascii := "039"%char.
Definition bslash : ascii := "092"%char.
Definition LF : ascii := "010"%char.
Definition CR : ascii := "013"%char.
Definition TAB : ascii := "009"%char.

(** One-character texts, for writing expected outputs. *)
Definition DQ : string := String dquote "".
Definition NL : string := String LF "".
Definition CRs : string := String CR "".

Definition hex_digit (n : nat) : ascii :=
  nth n (list_ascii_of_string "0123456789abcdef") "0"%char.

Definition hex2 (c : ascii) : string :=
  let n := nat_of_ascii c in
  String (hex_digit (n / 16)) (String (hex_digit (n mod 16)) "").

Fixpoint contains (c : ascii) (s : string) : bool :=
  match s with
  | "" => false
  | String c' s' => Ascii.eqb c c' || contains c s'
  end.

Fixpoint concat_map (f : ascii -> string) (s : string) : string :=
  match s with
  | "" => ""
  | String c s' => f c ++ concat_map f s'
  end.

(** *** [repr] and [str] *)

Definition printable (c : ascii) : bool :=
  let n := nat_of_ascii c in
  (32 <=? n)%nat && negb ((127 <=? n)%nat && (n <=? 160)%nat) && negb (n =? 173)%nat.

Definition repr_char (q c : ascii) : string :=
  if Ascii.eqb c bslash then String bslash (String bslash "")
  else if Ascii.eqb c q then String bslash (String q "")
  else if Ascii.eqb c TAB then String bslash "t"
  else if Ascii.eqb c LF then String bslash "n"
  else if Ascii.eqb c CR then String bslash "r"
  else if printable c then String c ""
  else String bslash (String "x" (hex2 c)).

Definition repr_str (s : string) : string :=
  let q := if contains squote s && negb (contains dquote s) then dquote else squote in
  String q (concat_map (repr_char q) s ++ String q "").

Fixpoint join (sep : string) (l : list string) : string :=
  match l with
  | [] => ""
  | [x] => x
  | x :: l' => x ++ sep ++ join sep l'
  end.

Fixpoint repr (v : pyval) : string :=
  match v with
  | PNone => "None"
  | PBool true => "True"
  | PBool false => "False"
  | PInt z => str_of_int z
  | PStr s => repr_str s
  | PList l => "[" ++ join ", " (map repr l) ++ "]"
  | PDict d =>
      "{" ++ join ", " (map (fun kv => repr_str (fst kv) ++ ": " ++ repr (snd kv)) d) ++ "}"
  end.

(** [str(x)], which is also what an f-string field [{x}] renders. *)
Definition str (v : pyval) : string :=
  match v with
  | PStr s => s
  | _ => repr v
  end.

(** *** [json.dumps(x, indent=2)] *)

Definition json_char (c : ascii) : string :=
  if Ascii.eqb c dquote then String bslash (String dquote "")
  else if Ascii.eqb c bslash then String bslash (String bslash "")
  else if Ascii.eqb c LF then String bslash "n"
  else if Ascii.eqb c CR then String bslash "r"
  else if Ascii.eqb c TAB then String bslash "t"
  else if Ascii.eqb c "008"%char then String bslash "b"
  else if Ascii.eqb c "012"%char then String bslash "f"
  else
    let n := nat_of_ascii c in
    if (32 <=? n)%nat && (n <? 127)%nat then String c ""
    else String bslash ("u00" ++ hex2 c).

Definition json_str (s : string) : string :=
  String dquote (concat_map json_char s ++ String dquote "").

Fixpoint spaces (n : nat) : string :=
  match n with O => "" | S n' => String " " (spaces n') end.

Definition newline_indent (level : nat) : string :=
  String LF (spaces (2 * level)).

Fixpoint json_dumps_at (level : nat) (v : pyval) : string :=
  match v with
  | PNone => "null"
  | PBool true => "true"
  | PBool false => "false"
  | PInt z => str_of_int z
  | PStr s => json_str s
  | PList [] => "[]"
  | PList l =>
      "[" ++ newline_indent (S level)
          ++ join ("," ++ newline_indent (S level)) (map (json_dumps_at (S level)) l)
          ++ newline_indent level ++ "]"
  | PDict [] => "{}"
  | PDict d =>
      "{" ++ newline_indent (S level)
          ++ join ("," ++ newline_indent (S level))
               (map (fun kv => json_str (fst kv) ++ ": " ++ json_dumps_at (S level) (snd kv)) d)
          ++ newline_indent level ++ "}"
  end.

Definition json_dumps_indent2 (v : pyval) : string := json_dumps_at 0 v.

End Py.
Import Py.

(* ================================================================= *)
(** ** Effects: the trace, exceptions, and the computation type *)

(** One line of the report: the three columns of the table and of the file. *)
Record row : Type := mk_row { Test : string; Result : string; Status : string }.

Module Eff.

Inductive exn_class : Type :=
| JSONDecodeError
| AttributeError
| KeyError
| TypeError
| ValueError
| RequestException
| Exit
| MarkupError
| Other (name : string).

(** An exception: its class and [str(e)].  [Other name] is a class that
    no handler of the script names, such as [OverflowError], [OSError],
    [UnicodeEncodeError] or [RecursionError]. *)
Record exn : Type := mk_exn { exn_cls : exn_class; exn_msg : string }.

(** An exception of such a class, from the name of the class and the
    message. *)
Definition other (f : string * string) : exn := mk_exn (Other (fst f)) (snd f).

Record request : Type := mk_request {
  req_method : string;
  req_url : string;
  req_headers : list (string * string);
  req_data : list (string * string)
}.

Inductive event : Type :=
| Console (text : string)
| Http (r : request)
| Sleep (ms : Z)
| Mkdir (folder : string)
| FileWrite (path content : string)
| Table (rows : list row).

Inductive result (A : Type) : Type :=
| Ok (a : A)
| Raise (e : exn).
Arguments Ok {A} a.
Arguments Raise {A} e.

(** A computation: the effects performed, in order, and how it ended.
    What can fail and is handled or escapes in the script (the HTTP
    client, the decoding of a body, a lookup, the pause, the rendering of
    console markup, the writing of the file) ends in [Raise]. *)
Definition M (A : Type) : Type := (list event * result A)%type.

Definition ret {A : Type} (a : A) : M A := ([], Ok a).

Definition raise {A : Type} (e : exn) : M A := ([], Raise e).

Definition emit (e : event) : M unit := ([e], Ok tt).

Definition bind {A B : Type} (m : M A) (f : A -> M B) : M B :=
  match m with
  | (t, Ok a) => let (t', r) := f a in ((t ++ t')%list, r)
  | (t, Raise e) => (t, Raise e)
  end.

(** [try: m except <classes> as e: h e]. *)
Definition try_except {A : Type} (m : M A) (handles : exn_class -> bool)
  (h : exn -> M A) : M A :=
  match m with
  | (t, Raise e) =>
      if handles (exn_cls e) then let (t', r) := h e in ((t ++ t')%list, r)
      else (t, Raise e)
  | _ => m
  end.

(** [except Exception]: every class of the model. *)
Definition any_exception (c : exn_class) : bool := true.

Definition only (c : exn_class) (c' : exn_class) : bool :=
  match c, c' with
  | JSONDecodeError, JSONDecodeError
  | AttributeError, AttributeError
  | KeyError, KeyError
  | TypeError, TypeError
  | ValueError, ValueError
  | RequestException, RequestException
  | Exit, Exit
  | MarkupError, MarkupError => true
  | Other n, Other n' => String.eqb n n'
  | _, _ => false
  end.

Definition trace {A : Type} (m : M A) : list event := fst m.
Definition result_of {A : Type} (m : M A) : result A := snd m.

End Eff.
Import Eff.

Declare Scope eff_scope.
Delimit Scope eff_scope with eff.
Notation "x <- m ;; k" := (bind m (fun x => k))
  (at level 61, m at next level, right associativity) : eff_scope.
Notation "m ;;; k" := (bind m (fun _ => k))
  (at level 61, right associativity) : eff_scope.
Local Open Scope eff_scope.

(* ================================================================= *)
(** ** What the libraries can refuse *)

(** The script hands text it did not write to three libraries that can
    refuse it, a sleep length to a fourth, and integers of any size to
    the interpreter's conversion to text.  What they decide is not
    computed here; it is part of the world a run happens in.

    - [far_sleep ms]: the class and the message of what the clock
      raises for a length of [ms] milliseconds outside [sleep_range]
      ([OverflowError] once the length no longer fits the clock,
      [OSError] when the clock refuses it), [None] if it raises
      nothing.
    - [long_int z]: the message of the [ValueError] that the conversion
      of [z] to decimal text raises when the text is longer than
      [int_max_str_digits], [None] if the text is produced.
    - [markup_error text]: the message of the [MarkupError] that the
      console raises when [text] holds a closing tag that closes nothing,
      [None] if the text is rendered.
    - [table_error rows]: the same for the cells of the table.
    - [write_error path content]: the class and the message of what
      opening [path] and writing [content] in utf-8 raises
      ([UnicodeEncodeError] for a lone surrogate, [OSError] from the
      file system), [None] if the file is written. *)
Record faults : Type := mk_faults {
  far_sleep : Z -> option (string * string);
  long_int : Z -> option string;
  markup_error : string -> option string;
  table_error : list row -> option string;
  write_error : string -> string -> option (string * string)
}.

(** The world in which nothing is refused. *)
Definition no_faults : faults :=
  mk_faults (fun _ => None) (fun _ => None) (fun _ => None) (fun _ => None)
    (fun _ _ => None).

(** [console.print(text)] for a text that interpolates what the caller or
    a server supplied.  The messages the script writes itself, whose tags
    are balanced, and those that interpolate integers only, are plain
    [Console] events: integers bring no tag. *)
Definition console_print (env : faults) (text : string) : M unit :=
  match markup_error env text with
  | Some msg => raise (mk_exn MarkupError msg)
  | None => emit (Console text)
  end.

(** [console.print(table)]. *)
Definition print_table (env : faults) (rows : list row) : M unit :=
  match table_error env rows with
  | Some msg => raise (mk_exn MarkupError msg)
  | None => emit (Table rows)
  end.

(** [open(path, "w", newline="", encoding="utf-8")] and the writing of
    [content]: the event stands for the file written in full. *)
Definition write_file (env : faults) (path content : string) : M unit :=
  match write_error env path content with
  | Some f => raise (other f)
  | None => emit (FileWrite path content)
  end.

(** The length of decimal text that every interpreter produces. *)
Definition int_max_str_digits : nat := 4300.

(** An integer in an f-string, [{z}] or [{z:010}]: the text [render z],
    unless it is longer than [int_max_str_digits] and the interpreter
    refuses the conversion. *)
Definition int_text (env : faults) (render : Z -> string) (z : Z) : M string :=
  if (String.length (render z) <=? int_max_str_digits)%nat then ret (render z)
  else match long_int env z with
       | Some msg => raise (mk_exn ValueError msg)
       | None => ret (render z)
       end.

(* ================================================================= *)
(** ** The scanner *)

(** The sleep lengths, in milliseconds, that every clock takes: up to
    about eleven days. *)
Definition sleep_range : Z := 10 ^ 9.

(** What the clock raises for a length: nothing within [sleep_range]. *)
Definition clock_error (env : faults) (ms : Z) : option (string * string) :=
  if (ms <? - sleep_range)%Z || (sleep_range <? ms)%Z then far_sleep env ms
  else None.

(** [time.sleep(ms / 1000)]: the length is handed to the clock, which
    may refuse it; then a negative length is refused with [ValueError];
    any other is one pause of the trace. *)
Definition time_sleep (env : faults) (ms : Z) : M unit :=
  match clock_error env ms with
  | Some f => raise (other f)
  | None =>
      if (ms <? 0)%Z
      then raise (mk_exn ValueError "sleep length must be non-negative")
      else emit (Sleep ms)
  end.

Definition brute_force_customers (env : faults) (secret_key : string)
  (delay start stop : Z) : M pyval :=
  time_sleep env delay ;;;
  first <- int_text env format_010 start ;;
  second <- int_text env format_010 stop ;;
  ret (PDict [("found_customers",
               PList [PDict [("id", PStr ("cus_" ++ first));
                             ("email", PStr "customer1@example.com")];
                      PDict [("id", PStr ("cus_" ++ second));
                             ("email", PNone)]])]).

(** A text of [width] decimal digits, leading zeros allowed, that reads
    as the number [n]. *)
Definition padded_decimal (width : nat) (n : Z) (s : string) : Prop :=
  String.length s = width
  /\ exists d, NilEmpty.uint_of_string s = Some d /\ Z.of_N (N.of_uint d) = n.

(** Reading a scan result back, in the words of the data model. *)
Definition found_customers (v : pyval) : option (list pyval) :=
  match v with
  | PDict d =>
      match dict_find "found_customers" d with
      | Some (PList l) => Some l
      | _ => None
      end
  | _ => None
  end.

Definition customer_id (c : pyval) : option string :=
  match c with
  | PDict d => match dict_find "id" d with Some (PStr s) => Some s | _ => None end
  | _ => None
  end.

(** The email of an identifier: [None] models the absent email. *)
Definition customer_email (c : pyval) : option string :=
  match c with
  | PDict d => match dict_find "email" d with Some (PStr s) => Some s | _ => None end
  | _ => None
  end.

(** The fields of an outcome, in the words of the data model: the
    success flag, the optional payload and the optional error. *)
Definition succeeded (o : pyval) : bool :=
  match o with
  | PDict d => truthy (dict_get "status" PNone d)
  | _ => false
  end.

Definition payload (o : pyval) : option pyval :=
  match o with
  | PDict d => dict_find "raw_response" d
  | _ => None
  end.

Definition error (o : pyval) : option pyval :=
  match o with
  | PDict d => dict_find "error" d
  | _ => None
  end.

(* ================================================================= *)
(** ** The HTTP boundary *)

(** What [response.json()] gives: the decoded body, the decode error
    that [except json.JSONDecodeError] catches, with its message, or an
    exception of another class that this handler lets through
    ([ValueError] for an integer of too many digits, [RecursionError]
    for a body nested too deep), with the name of its class and its
    message.  It is a field of the response of its own, so that nothing
    is assumed about how the HTTP client decodes a text. *)
Inductive parsed : Type :=
| Parsed (v : pyval)
| Malformed (msg : string)
| Broken (name msg : string).

Record response : Type := mk_response {
  status_code : Z;
  text : string;
  json : parsed
}.

(** What a call of the HTTP client gives: a response, or an exception
    of the client with its message. *)
Inductive reply : Type :=
| Response (r : response)
| Failure (msg : string).

Definition response_json (r : response) : M pyval :=
  match json r with
  | Parsed v => ret v
  | Malformed msg => raise (mk_exn JSONDecodeError msg)
  | Broken name msg => raise (mk_exn (Other name) msg)
  end.

(** [v.get(key, default)]: only a dictionary has the method. *)
Definition py_get (v : pyval) (key : string) (default : pyval) : M pyval :=
  match v with
  | PDict d => ret (dict_get key default d)
  | _ => raise (mk_exn AttributeError
                  ("'" ++ type_name v ++ "' object has no attribute 'get'"))
  end.

(** [v[key]] with a text key. *)
Definition py_getitem (v : pyval) (key : string) : M pyval :=
  match v with
  | PDict d =>
      match dict_find key d with
      | Some x => ret x
      | None => raise (mk_exn KeyError (repr_str key))
      end
  | PStr _ => raise (mk_exn TypeError "string indices must be integers, not 'str'")
  | PList _ => raise (mk_exn TypeError "list indices must be integers or slices, not str")
  | _ => raise (mk_exn TypeError ("'" ++ type_name v ++ "' object is not subscriptable"))
  end.

(** [for x in v]: the elements of a list, the characters of a text, the
    keys of a dictionary. *)
Definition py_iter (v : pyval) : M (list pyval) :=
  match v with
  | PList l => ret l
  | PStr s => ret (map (fun c => PStr (String c "")) (list_ascii_of_string s))
  | PDict d => ret (map (fun kv => PStr (fst kv)) d)
  | _ => raise (mk_exn TypeError ("'" ++ type_name v ++ "' object is not iterable"))
  end.

Fixpoint mapM {A B : Type} (f : A -> M B) (l : list A) : M (list B) :=
  match l with
  | [] => ret []
  | x :: l' => y <- f x ;; ys <- mapM f l' ;; ret (y :: ys)
  end.

(** The fixed test card of [test_publishable_key]. *)
Definition test_card : list (string * string) :=
  [("card[number]", "4242424242424242");
   ("card[exp_month]", "12");
   ("card[exp_year]", "2025");
   ("card[cvc]", "123")].

Definition bearer (credential : string) : list (string * string) :=
  [("Authorization", "Bearer " ++ credential)].

(* ================================================================= *)
(** ** The reporter: rows *)

(** The rows of one [found_customers] identifier; the same text in
    [save_results_to_file] and in [display_results]. *)
Definition customer_row (customer : pyval) : M row :=
  id <- py_getitem customer "id" ;;
  email <- py_get customer "email" (PStr "No Email") ;;
  got_id <- py_get customer "id" PNone ;;
  let customer_info := str id ++ " (" ++ str email ++ ")" in
  let customer_status := if truthy got_id then "PASS" else "FAIL" in
  ret (mk_row "Found Customer" customer_info customer_status).

Definition is_dict_or_list (v : pyval) : bool :=
  match v with
  | PDict _ | PList _ => true
  | _ => false
  end.

Definition is_True (v : pyval) : bool :=
  match v with
  | PBool true => true
  | _ => false
  end.

(** The body of the loop of [save_results_to_file] for one entry. *)
Definition save_entry (test : string) (data : pyval) : M (list row) :=
  match data with
  | PDict d =>
      let status :=
        if truthy (dict_get "status" PNone d) then "PASS"
        else "FAIL (" ++ str (dict_get "error"
                                (dict_get "raw_response" (PStr "Unknown Error") d) d)
                      ++ ")" in
      if dict_mem "raw_response" d then
        let raw := dict_get "raw_response" PNone d in
        let result_str :=
          if is_dict_or_list raw then json_dumps_indent2 raw else str raw in
        ret [mk_row test result_str status]
      else if dict_mem "found_customers" d then
        customers <- py_iter (dict_get "found_customers" PNone d) ;;
        mapM customer_row customers
      else
        ret [mk_row test "-" status]
  | _ =>
      let status := if is_True data then "PASS" else "FAIL (" ++ str data ++ ")" in
      ret [mk_row test "-" status]
  end.

(** The body of the loop of [display_results] for one entry. *)
Definition display_entry (test : string) (data : pyval) : M (list row) :=
  match data with
  | PDict d =>
      if dict_mem "raw_response" d then
        let status := if truthy (dict_get "status" PNone d) then "PASS" else "FAIL" in
        let raw_response := dict_get "raw_response" (PStr "-") d in
        let raw_response_str :=
          if is_dict_or_list raw_response then json_dumps_indent2 raw_response
          else str raw_response in
        ret [mk_row test raw_response_str status]
      else if dict_mem "found_customers" d then
        customers <- py_iter (dict_get "found_customers" PNone d) ;;
        mapM customer_row customers
      else
        let status :=
          if truthy (dict_get "status" PNone d) then "PASS"
          else "FAIL (" ++ str (dict_get "error" (PStr "Unknown Error") d) ++ ")" in
        ret [mk_row test "-" status]
  | _ =>
      let status := if is_True data then "PASS" else "FAIL (" ++ str data ++ ")" in
      ret [mk_row test "-" status]
  end.

(** [for test, data in results.items()], appending rows. *)
Fixpoint for_items (body : string -> pyval -> M (list row)) (results : dict)
  : M (list row) :=
  match results with
  | [] => ret []
  | (test, data) :: rest =>
      rows <- body test data ;;
      more <- for_items body rest ;;
      ret (rows ++ more)%list
  end.

Definition csv_data (results : dict) : M (list row) := for_items save_entry results.

Definition table_rows (results : dict) : M (list row) := for_items display_entry results.

(* ================================================================= *)
(** ** The report file format *)

(** The [csv] module of the host language with its default dialect:
    delimiter [,], quote character, doubled quotes, minimal quoting,
    line terminator CR LF, no escape character, not strict. *)
Module Csv.

Definition delimiter : ascii := ","%char.
Definition quotechar : ascii := dquote.
Definition lineterminator : string := String CR (String LF "").

(** *** Writing *)

Definition special (c : ascii) : bool :=
  Ascii.eqb c delimiter || Ascii.eqb c quotechar || contains c lineterminator.

Fixpoint needs_quotes (s : string) : bool :=
  match s with
  | "" => false
  | String c s' => special c || needs_quotes s'
  end.

Fixpoint double_quotes (s : string) : string :=
  match s with
  | "" => ""
  | String c s' =>
      if Ascii.eqb c quotechar then String quotechar (String quotechar (double_quotes s'))
      else String c (double_quotes s')
  end.

Definition write_field (s : string) : string :=
  if needs_quotes s then String quotechar (double_quotes s ++ String quotechar "")
  else s.

(** [writer.writerow]: a record that would be empty (one empty field) is
    written as a quoted empty field. *)
Definition writerow (fields : list string) : string :=
  let rec := join (String delimiter "") (map write_field fields) in
  let rec := match fields, rec with
             | _ :: _, "" => String quotechar (String quotechar "")
             | _, _ => rec
             end in
  rec ++ lineterminator.

Definition fieldnames : list string := ["Test"; "Result"; "Status"].

(** [DictWriter.writerow]: the values of a row in the order of the
    field names. *)
Definition row_fields (r : row) : list string := [Test r; Result r; Status r].

Fixpoint writerows (rows : list row) : string :=
  match rows with
  | [] => ""
  | r :: rows' => writerow (row_fields r) ++ writerows rows'
  end.

(** [writeheader] then [writerows]. *)
Definition file_text (rows : list row) : string :=
  writerow fieldnames ++ writerows rows.

(** *** Reading *)

(** The lines of a file opened with [newline=""]: a line ends after LF,
    after CR LF, or after a CR that no LF follows; the ending stays on
    the line. *)
Fixpoint readlines_from (line : string) (s : string) : list string :=
  match s with
  | "" => match line with "" => [] | _ => [line] end
  | String c s' =>
      if Ascii.eqb c LF then (line ++ String c "") :: readlines_from "" s'
      else if Ascii.eqb c CR then
        match s' with
        | String c' s'' =>
            if Ascii.eqb c' LF
            then (line ++ String c (String c' "")) :: readlines_from "" s''
            else (line ++ String c "") :: readlines_from "" s'
        | "" => (line ++ String c "") :: readlines_from "" s'
        end
      else readlines_from (line ++ String c "") s'
  end.

Definition readlines (s : string) : list string := readlines_from "" s.

(** The states of the reader's automaton (those an escape character
    would add cannot be reached in this dialect). *)
Inductive parser_state : Type :=
| START_RECORD
| START_FIELD
| IN_FIELD
| IN_QUOTED_FIELD
| QUOTE_IN_QUOTED_FIELD
| EAT_CRNL.

Record reader : Type := mk_reader {
  state : parser_state;
  field : string;
  fields : list string
}.

Definition parse_reset : reader := mk_reader START_RECORD "" [].

Definition parse_save_field (r : reader) : reader :=
  mk_reader (state r) "" (fields r ++ [field r])%list.

(** [csv.field_size_limit()] as the library sets it. *)
Definition field_size_limit : N := 131072.

Definition fits (limit : N) (s : string) : bool :=
  (N.of_nat (String.length s) <=? limit)%N.

(** A character is refused once the field has [limit] characters. *)
Definition parse_add_char (limit : N) (r : reader) (c : ascii) : option reader :=
  if (limit <=? N.of_nat (String.length (field r)))%N then None
  else Some (mk_reader (state r) (field r ++ String c "") (fields r)).

Definition set_state (r : reader) (st : parser_state) : reader :=
  mk_reader st (field r) (fields r).

Definition is_newline (c : ascii) : bool := Ascii.eqb c LF || Ascii.eqb c CR.

(** After the end of a field at a line ending or at the end of a line. *)
Definition end_record (r : reader) (c : option ascii) : reader :=
  set_state (parse_save_field r)
    (match c with None => START_RECORD | Some _ => EAT_CRNL end).

Definition then_state (r : option reader) (st : parser_state) : option reader :=
  option_map (fun r' => set_state r' st) r.

Definition start_field (limit : N) (r : reader) (c : option ascii) : option reader :=
  match c with
  | None => Some (end_record r c)
  | Some ch =>
      if is_newline ch then Some (end_record r c)
      else if Ascii.eqb ch quotechar then Some (set_state r IN_QUOTED_FIELD)
      else if Ascii.eqb ch delimiter then Some (parse_save_field r)
      else then_state (parse_add_char limit r ch) IN_FIELD
  end.

(** One step of the automaton; [None] as input is the end of a line,
    [None] as output the reader's error. *)
Definition parse_process_char (limit : N) (r : reader) (c : option ascii)
  : option reader :=
  match state r with
  | START_RECORD =>
      match c with
      | None => Some r
      | Some ch =>
          if is_newline ch then Some (set_state r EAT_CRNL)
          else start_field limit (set_state r START_FIELD) c
      end
  | START_FIELD => start_field limit r c
  | IN_FIELD =>
      match c with
      | None => Some (end_record r c)
      | Some ch =>
          if is_newline ch then Some (end_record r c)
          else if Ascii.eqb ch delimiter
          then Some (set_state (parse_save_field r) START_FIELD)
          else parse_add_char limit r ch
      end
  | IN_QUOTED_FIELD =>
      match c with
      | None => Some r
      | Some ch =>
          if Ascii.eqb ch quotechar then Some (set_state r QUOTE_IN_QUOTED_FIELD)
          else parse_add_char limit r ch
      end
  | QUOTE_IN_QUOTED_FIELD =>
      match c with
      | None => Some (end_record r c)
      | Some ch =>
          if Ascii.eqb ch quotechar
          then then_state (parse_add_char limit r ch) IN_QUOTED_FIELD
          else if Ascii.eqb ch delimiter
          then Some (set_state (parse_save_field r) START_FIELD)
          else if is_newline ch then Some (end_record r c)
          else then_state (parse_add_char limit r ch) IN_FIELD
      end
  | EAT_CRNL =>
      match c with
      | None => Some (set_state r START_RECORD)
      | Some ch => if is_newline ch then Some r else None
      end
  end.

Fixpoint process_chars (limit : N) (r : reader) (s : string) : option reader :=
  match s with
  | "" => Some r
  | String c s' =>
      match parse_process_char limit r (Some c) with
      | Some r' => process_chars limit r' s'
      | None => None
      end
  end.

(** The characters of one line, then the end of the line. *)
Definition process_line (limit : N) (r : reader) (line : string) : option reader :=
  match process_chars limit r line with
  | Some r' => parse_process_char limit r' None
  | None => None
  end.

Definition is_start_record (st : parser_state) : bool :=
  match st with START_RECORD => true | _ => false end.

Definition is_in_quoted_field (st : parser_state) : bool :=
  match st with IN_QUOTED_FIELD => true | _ => false end.

(** All the records of the reader: lines are consumed until the
    automaton is back at the start of a record; input that ends inside a
    record closes it. *)
Fixpoint records (limit : N) (r : reader) (lines : list string)
  : option (list (list string)) :=
  match lines with
  | [] =>
      if negb (String.eqb (field r) "") || is_in_quoted_field (state r)
      then Some [fields (parse_save_field r)]
      else Some []
  | line :: rest =>
      match process_line limit r line with
      | None => None
      | Some r' =>
          if is_start_record (state r')
          then option_map (cons (fields r')) (records limit parse_reset rest)
          else records limit r' rest
      end
  end.

(** [list(csv.reader(file))] with the field size limit [limit]; [None]
    is the reader's error. *)
Definition reader_rows (limit : N) (content : string)
  : option (list (list string)) :=
  records limit parse_reset (readlines content).



(** Every cell of a row is within the limit. *)
Definition row_fits (limit : N) (r : row) : bool :=
  forallb (fits limit) (row_fields r).

End Csv.

(* ================================================================= *)
(** ** The program *)

Section Program.

(** The world outside the script: the HTTP client with the remote
    services behind it, the clock rendered as [%Y%m%d_%H%M%S], the
    joining of a folder and a file name into a path, the help text of
    [display_menu], and what the libraries refuse. *)
Variable transport : request -> reply.
Variable now : string.
Variable path_join : string -> string -> string.
Variable menu : string.
Variable env : faults.

Definition http (req : request) : M response :=
  emit (Http req) ;;;
  match transport req with
  | Response r => ret r
  | Failure msg => raise (mk_exn RequestException msg)
  end.

Definition requests_get (url : string) (headers : list (string * string))
  : M response :=
  http (mk_request "GET" url headers []).

Definition requests_post (url : string) (headers data : list (string * string))
  : M response :=
  http (mk_request "POST" url headers data).

(* ----------------------------------------------------------------- *)
(** *** The probes *)

Definition test_publishable_key (pubkey : string) : M pyval :=
  try_except
    (let url := "https://api.stripe.com/v1/tokens" in
     let headers := bearer pubkey in
     let data := test_card in
     response <- requests_post url headers data ;;
     if (status_code response =? 200)%Z then
       body <- response_json response ;;
       ret (PDict [("status", PBool true); ("raw_response", body)])
     else
       error_message <-
         try_except
           (body <- response_json response ;;
            py_get body "error" (PStr (text response)))
           (only JSONDecodeError)
           (fun _ => ret (PStr (text response))) ;;
       ret (PDict [("status", PBool false); ("error", error_message)]))
    any_exception
    (fun e => ret (PDict [("status", PBool false); ("error", PStr (exn_msg e))])).

Definition test_custom_endpoint (secret_key endpoint : string) : M pyval :=
  try_except
    (let headers := bearer secret_key in
     response <- requests_get endpoint headers ;;
     if (status_code response =? 200)%Z then
       body <- response_json response ;;
       ret (PDict [("status", PBool true); ("raw_response", body)])
     else
       ret (PDict [("status", PBool false); ("raw_response", PStr (text response))]))
    any_exception
    (fun e => ret (PDict [("status", PBool false); ("error", PStr (exn_msg e))])).

Definition test_list_charges (secret_key : string) : M pyval :=
  let headers := bearer secret_key in
  try_except
    (response <- requests_get "https://api.stripe.com/v1/charges" headers ;;
     if (status_code response =? 200)%Z then
       body <- response_json response ;;
       ret (PDict [("status", PBool true); ("raw_response", body)])
     else
       try_except
         (body <- response_json response ;;
          ret (PDict [("status", PBool false); ("raw_response", body)]))
         (only JSONDecodeError)
         (fun _ => ret (PDict [("status", PBool false);
                               ("raw_response", PStr (text response))])))
    any_exception
    (fun e => ret (PDict [("status", PBool false); ("error", PStr (exn_msg e))])).


(* ----------------------------------------------------------------- *)
(** *** The reporter: the file and the table *)

Definition save_results_to_file (results : dict) (output_folder : string) : M unit :=
  emit (Mkdir output_folder) ;;;
  let timestamp := now in
  let output_file :=
    path_join output_folder ("stripe_test_results_" ++ timestamp ++ ".csv") in
  rows <- csv_data results ;;
  write_file env output_file (Csv.file_text rows) ;;;
  console_print env (String LF "[bold green]Results saved to " ++ output_file
                       ++ "[/bold green]").

Definition display_results (results : dict) : M unit :=
  rows <- table_rows results ;;
  print_table env rows.

Definition display_header : M unit :=
  emit (Console "Stripe Checker: A Tool for Auditing and Validating Stripe API Keys") ;;;
  emit (Console "======================================================================").

Definition display_menu : M unit := emit (Console menu).

(* ----------------------------------------------------------------- *)
(** *** The mode dispatcher *)

(** The options of the command line; an option not given is [None]. *)
Record options : Type := mk_options {
  mode : option string;
  secretkey : option string;
  pubkey : option string;
  start : option Z;
  stop : option Z;
  delay : Z;
  custom_endpoint : option string;
  output_folder : string
}.

(** [not x] for an optional text: unset or empty. *)
Definition not_set (x : option string) : bool :=
  match x with
  | None => true
  | Some s => String.eqb s ""
  end.

Definition is_None {A : Type} (x : option A) : bool :=
  match x with None => true | Some _ => false end.

Definition value (x : option string) : string :=
  match x with Some s => s | None => "" end.

Definition str_opt (x : option string) : string :=
  match x with Some s => s | None => "None" end.

Definition mode_is (o : options) (name : string) : bool :=
  match mode o with
  | Some m => String.eqb m name
  | None => false
  end.

(** A fixed error message, then [raise typer.Exit()]. *)
Definition reject {A : Type} (message : string) : M A :=
  emit (Console message) ;;; raise (mk_exn Exit "").

(** The branches of [main] on the mode: the report they build. *)
Definition dispatch (o : options) : M dict :=
  let results : dict := [] in
  if mode_is o "default" then
    if not_set (secretkey o) then
      reject "[bold red]Error: --secretkey is required for default mode.[/bold red]"
    else
      emit (Console "Testing if the secret key can list charges...") ;;;
      test_result <- test_list_charges (value (secretkey o)) ;;
      ret (dict_set "list_charges" test_result results)
  else if mode_is o "brute-force" then
    match not_set (secretkey o), start o, stop o with
    | false, Some start, Some stop =>
        if (start >? stop)%Z then
          reject "[bold red]Error: --start must be less than or equal to --stop.[/bold red]"
        else
          first <- int_text env format_010 start ;;
          second <- int_text env format_010 stop ;;
          pause <- int_text env str_of_int (delay o) ;;
          emit (Console ("Brute-forcing customer IDs from cus_" ++ first
                           ++ " to cus_" ++ second ++ " with a delay of "
                           ++ pause ++ "ms...")) ;;;
          brute_force_data <-
            brute_force_customers env (value (secretkey o)) (delay o) start stop ;;
          ret (dict_set "brute_force_results" brute_force_data results)
    | _, _, _ =>
        reject "[bold red]Error: --secretkey, --start, and --stop are required for brute-force mode.[/bold red]"
    end
  else if mode_is o "pubkey" then
    if not_set (pubkey o) then
      reject "[bold red]Error: --pubkey is required for pubkey mode.[/bold red]"
    else
      emit (Console "Testing Publishable Key by creating a test token...") ;;;
      pubkey_result <- test_publishable_key (value (pubkey o)) ;;
      ret (dict_set "test_publishable_key" pubkey_result results)
  else if mode_is o "full" then
    if not_set (secretkey o) || not_set (pubkey o) then
      reject "[bold red]Error: --secretkey and --pubkey are required for full mode.[/bold red]"
    else
      emit (Console "Testing full validation (secret key and publishable key)...") ;;;
      list_charges_result <- test_list_charges (value (secretkey o)) ;;
      let results := dict_set "list_charges" list_charges_result results in
      pubkey_result <- test_publishable_key (value (pubkey o)) ;;
      ret (dict_set "test_publishable_key" pubkey_result results)
  else if mode_is o "restricted" then
    if not_set (secretkey o) then
      reject "[bold red]Error: --secretkey is required for restricted mode.[/bold red]"
    else
      emit (Console "Testing restricted key...") ;;;
      restricted_result <- test_list_charges (value (secretkey o)) ;;
      ret (dict_set "list_charges" restricted_result results)
  else if mode_is o "custom" then
    if not_set (secretkey o) || not_set (custom_endpoint o) then
      reject "[bold red]Error: --secretkey and --custom-endpoint are required for custom mode.[/bold red]"
    else
      console_print env ("Testing custom endpoint " ++ value (custom_endpoint o)
                           ++ "...") ;;;
      custom_result <-
        test_custom_endpoint (value (secretkey o)) (value (custom_endpoint o)) ;;
      ret (dict_set "test_custom_endpoint" custom_result results)
  else
    console_print env ("[bold red]Error: Unknown mode '" ++ str_opt (mode o)
                         ++ "'. Please choose a valid mode.[/bold red]") ;;;
    raise (mk_exn Exit "").

Definition nonempty (results : dict) : bool :=
  match results with [] => false | _ => true end.

(** [main]; [argc] is [len(sys.argv)]. *)
Definition main (argc : nat) (o : options) : M unit :=
  if (argc =? 1)%nat then
    display_header ;;; display_menu ;;; raise (mk_exn Exit "")
  else
    results <- dispatch o ;;
    (if nonempty results then save_results_to_file results (output_folder o)
     else emit (Console "[bold yellow]No results to save. Ensure the mode executed properly.[/bold yellow]")) ;;;
    (if nonempty results then display_results results
     else emit (Console "[bold yellow]No results to display.[/bold yellow]")).

End Program.

(* ================================================================= *)
(** ** The dispatcher's table, as the specification words it *)

(** These follow the specification, not the code: the six recognized
    modes, the parameters each one requires, and what makes a run
    rejected.  They are compared with [main] below. *)
Module Spec.

Definition modes : list string :=
  ["default"; "brute-force"; "pubkey"; "full"; "restricted"; "custom"].

Definition recognized (o : options) : bool :=
  match mode o with
  | Some m => existsb (String.eqb m) modes
  | None => false
  end.

Definition required_unset (o : options) : bool :=
  (mode_is o "default" && is_None (secretkey o))
  || (mode_is o "brute-force"
      && (is_None (secretkey o) || is_None (start o) || is_None (stop o)))
  || (mode_is o "pubkey" && is_None (pubkey o))
  || (mode_is o "full" && (is_None (secretkey o) || is_None (pubkey o)))
  || (mode_is o "restricted" && is_None (secretkey o))
  || (mode_is o "custom" && (is_None (secretkey o) || is_None (custom_endpoint o))).

Definition start_after_stop (o : options) : bool :=
  mode_is o "brute-force"
  && match start o, stop o with
     | Some a, Some b => (a >? b)%Z
     | _, _ => false
     end.

Definition rejected (o : options) : bool :=
  required_unset o || start_after_stop o || negb (recognized o).

End Spec.

(** Effects that touch nothing but the console. *)
Definition console_event (e : event) : bool :=
  match e with
  | Console _ => true
  | _ => false
  end.

(** The requests the probes send. *)
Definition charges_request (secret_key : string) : request :=
  mk_request "GET" "https://api.stripe.com/v1/charges" (bearer secret_key) [].

Definition tokens_request (pubkey : string) : request :=
  mk_request "POST" "https://api.stripe.com/v1/tokens" (bearer pubkey) test_card.

Definition custom_request (secret_key endpoint : string) : request :=
  mk_request "GET" endpoint (bearer secret_key) [].

(** The two shapes of an outcome a probe builds. *)
Inductive outcome_shape : pyval -> Prop :=
| with_payload (b : bool) (v : pyval) :
    outcome_shape (PDict [("status", PBool b); ("raw_response", v)])
| with_error (v : pyval) :
    outcome_shape (PDict [("status", PBool false); ("error", v)]).

(** An effect that carries no card data but the fixed test card. *)
Definition only_test_card (e : event) : Prop :=
  match e with
  | Http r =>
      req_data r = []
      \/ req_data r = [("card[number]", "4242424242424242");
                      ("card[exp_month]", "12");
                      ("card[exp_year]", "2025");
                      ("card[cvc]", "123")]
  | _ => True
  end.

(** Two rows, one of the file and one of the table, that agree except
    possibly in the text the file adds after [FAIL]. *)
Definition same_up_to_fail_text (file_row shown_row : row) : Prop :=
  Test file_row = Test shown_row
  /\ Result file_row = Result shown_row
  /\ (Status file_row = Status shown_row
      \/ (Status shown_row = "FAIL"
          /\ exists summary, Status file_row = "FAIL (" ++ summary ++ ")")).

(** The summary of a failed entry: the error if there is one, else the
    payload, else a fixed text; each rendered by [str]. *)
Definition fail_summary (d : dict) : string :=
  match dict_find "error" d, dict_find "raw_response" d with
  | Some e, _ => str e
  | None, Some p => str p
  | None, None => "Unknown Error"
  end.

(** The cell that shows a payload: indented JSON for structured data,
    [str] for the rest. *)
Definition payload_text (v : pyval) : string :=
  if is_dict_or_list v then json_dumps_indent2 v else str v.

(** How two row computations compare: the same rows up to the text after
    [FAIL], or the same exception. *)
Definition rows_agree (file shown : M (list row)) : Prop :=
  match result_of file, result_of shown with
  | Ok file_rows, Ok shown_rows => Forall2 same_up_to_fail_text file_rows shown_rows
  | Raise e, Raise e' => e = e'
  | _, _ => False
  end.


(** A discovered identifier as the scanner builds it: an id and an email
    that may be absent. *)
Definition identifier (i : string * option string) : pyval :=
  PDict [("id", PStr (fst i));
         ("email", match snd i with Some e => PStr e | None => PNone end)].

Definition identifier_row (i : string * option string) : row :=
  mk_row "Found Customer"
    (fst i ++ " (" ++ match snd i with Some e => e | None => "None" end ++ ")")
    (if String.eqb (fst i) "" then "FAIL" else "PASS").

(* ================================================================= *)
(** ** Reports, as the data model words them *)

(** These follow the specification, not the code: an entry of a report
    is the outcome of a probe (the success flag, the optional payload,
    the optional error) or a discovery list of identifiers (an id, an
    optional email), and the status rule gives every entry its rows.
    The rule is the one of the specification with the summary rendered
    by [str]; it is compared with [save_results_to_file] below. *)
Inductive entry : Type :=
| Outcome (ok : bool) (body failure : option pyval)
| Discovery (ids : list (string * option string)).

Definition report : Type := list (string * entry).









(* ================================================================= *)
(** ** Vocabulary for the reader's proofs *)

Module CsvRun.
Import Csv.

(** The records still to come when the reader started the current line
    in [r0], the line so far is [line], and [s] is the rest of the
    file. *)
Definition run (limit : N) (r0 : reader) (line s : string)
  : option (list (list string)) :=
  records limit r0 (readlines_from line s).

(** The same, at the end of the line [line]. *)
Definition endline (limit : N) (r0 : reader) (line s : string)
  : option (list (list string)) :=
  match process_line limit r0 line with
  | None => None
  | Some r' =>
      if is_start_record (state r')
      then option_map (cons (fields r')) (run limit parse_reset "" s)
      else run limit r' "" s
  end.

Definition starts_with_LF (s : string) : bool :=
  match s with
  | String c _ => Ascii.eqb c LF
  | "" => false
  end.

(** The reader after a character it has taken into the field. *)
Definition with_char (r : reader) (c : ascii) : reader :=
  mk_reader (state r) (field r ++ String c "") (fields r).

(** The automaton is in [r] after the characters of [line], having
    started the line in [r0]. *)
Definition at_line (limit : N) (r0 : reader) (line : string) (r : reader) : Prop :=
  process_chars limit r0 line = Some r.

(** States in which a field may begin, and states in which a delimiter
    or a line ending closes the current field. *)
Definition field_may_begin (st : parser_state) : bool :=
  match st with
  | START_RECORD | START_FIELD => true
  | _ => false
  end.

Definition field_may_end (st : parser_state) : bool :=
  match st with
  | START_FIELD | IN_FIELD | QUOTE_IN_QUOTED_FIELD => true
  | _ => false
  end.

(** After a field the automaton is inside an unquoted field, just past
    a closing quote, or where it was when the field is empty. *)
Definition after_field (before after : parser_state) : Prop :=
  after = IN_FIELD \/ after = QUOTE_IN_QUOTED_FIELD \/ after = before.

End CsvRun.

(** The longest cell of a list of rows. *)
Fixpoint widest (rows : list row) : N :=
  match rows with
  | [] => 0
  | r :: rows' =>
      N.max (N.max (N.of_nat (String.length (Test r)))
               (N.max (N.of_nat (String.length (Result r)))
                  (N.of_nat (String.length (Status r)))))
        (widest rows')
  end.



(** A row as [DictReader] gives it back. *)
Definition row_dict (r : row) : list (string * string) :=
  [("Test", Test r); ("Result", Result r); ("Status", Status r)].

Definition test_status (d : list (string * string)) : option string * option string :=
  (dict_find "Test" d, dict_find "Status" d).

(* ================================================================= *)
(** ** Sample runs *)

(** A world in which the charge listing cannot be reached and the token
    endpoint answers. *)
Definition sample_transport (req : request) : reply :=
  if String.eqb (req_method req) "GET" then Failure "Connection refused"
  else Response (mk_response 200 "{}" (Parsed (PDict [("id", PStr "tok_1")]))).

Definition sample_join (folder name : string) : string := folder ++ "/" ++ name.

Definition full_options : options :=
  mk_options (Some "full") (Some "sk_test_123") (Some "pk_test_123")
    None None 500 None "output".

Definition backwards_range : options :=
  mk_options (Some "brute-force") (Some "sk_test_123") None
    (Some 50%Z) (Some 10%Z) 500 None "output".

Definition range_1_100 : options :=
  mk_options (Some "brute-force") (Some "sk_test_123") None
    (Some 1%Z) (Some 100%Z) 500 None "output".

(* ================================================================= *)
(** ** Vocabulary for the properties of whole runs *)

Definition is_http (e : event) : bool :=
  match e with
  | Http _ => true
  | _ => false
  end.

(** Effects a run has before it reports: messages, requests, the pause. *)
Definition before_report (e : event) : bool :=
  match e with
  | Console _ | Http _ | Sleep _ => true
  | _ => false
  end.

Definition range_ok (o : options) : bool :=
  match start o, stop o with
  | Some a, Some b => negb (a >? b)%Z
  | _, _ => false
  end.

(** The guards of [main] put together, mode by mode: the run passes
    them and goes on to its probes. *)
Definition accepted (o : options) : bool :=
  if mode_is o "default" then negb (not_set (secretkey o))
  else if mode_is o "brute-force" then negb (not_set (secretkey o)) && range_ok o
  else if mode_is o "pubkey" then negb (not_set (pubkey o))
  else if mode_is o "full" then
    negb (not_set (secretkey o) || not_set (pubkey o))
  else if mode_is o "restricted" then negb (not_set (secretkey o))
  else if mode_is o "custom" then
    negb (not_set (secretkey o) || not_set (custom_endpoint o))
  else false.

(** An option given as the empty text. *)
Definition is_empty (x : option string) : bool :=
  match x with
  | Some s => String.eqb s ""
  | None => false
  end.

(** A credential or endpoint the mode requires is the empty text. *)
Definition required_empty (o : options) : bool :=
  (mode_is o "default" && is_empty (secretkey o))
  || (mode_is o "brute-force" && is_empty (secretkey o))
  || (mode_is o "pubkey" && is_empty (pubkey o))
  || (mode_is o "full" && (is_empty (secretkey o) || is_empty (pubkey o)))
  || (mode_is o "restricted" && is_empty (secretkey o))
  || (mode_is o "custom"
      && (is_empty (secretkey o) || is_empty (custom_endpoint o))).

(** The requests a mode may send, given the options of the run. *)
Definition mode_request (o : options) (r : request) : Prop :=
  if mode_is o "default" then r = charges_request (value (secretkey o))
  else if mode_is o "brute-force" then False
  else if mode_is o "pubkey" then r = tokens_request (value (pubkey o))
  else if mode_is o "full" then
    r = charges_request (value (secretkey o))
    \/ r = tokens_request (value (pubkey o))
  else if mode_is o "restricted" then r = charges_request (value (secretkey o))
  else if mode_is o "custom" then
    r = custom_request (value (secretkey o)) (value (custom_endpoint o))
  else False.

Definition allowed_event (o : options) (e : event) : Prop :=
  match e with
  | Http r => mode_request o r
  | _ => True
  end.

(** What the dispatcher puts in a report: the outcome of a probe, or a
    discovery list with at least one identifier. *)
Inductive report_entry : pyval -> Prop :=
| entry_outcome (o : pyval) : outcome_shape o -> report_entry o
| entry_scan (ids : list (string * option string)) :
    ids <> [] ->
    report_entry (PDict [("found_customers", PList (map identifier ids))]).

(** The two identifiers of a scan. *)
Definition scan_ids (start stop : Z) : list (string * option string) :=
  [("cus_" ++ format_010 start, Some "customer1@example.com");
   ("cus_" ++ format_010 stop, None)].

(** The messages of the two branches of [main] for an empty report. *)
Definition no_results_message (e : event) : bool :=
  match e with
  | Console m =>
      String.eqb m "[bold yellow]No results to save. Ensure the mode executed properly.[/bold yellow]"
      || String.eqb m "[bold yellow]No results to display.[/bold yellow]"
  | _ => false
  end.

Definition sleep_refused : exn :=
  mk_exn ValueError "sleep length must be non-negative".

(** The key sets a report can have. *)
Definition report_keys : list (list string) :=
  [["list_charges"];
   ["brute_force_results"];
   ["test_publishable_key"];
   ["list_charges"; "test_publishable_key"];
   ["test_custom_endpoint"]].

(** The same options under another mode. *)
Definition with_mode (name : string) (o : options) : options :=
  mk_options (Some name) (secretkey o) (pubkey o) (start o) (stop o)
    (delay o) (custom_endpoint o) (output_folder o).

(** The integers of a scan are short enough for their text. *)
Definition short_ints (o : options) : bool :=
  match start o, stop o with
  | Some a, Some b =>
      (String.length (format_010 a) <=? int_max_str_digits)%nat
      && (String.length (format_010 b) <=? int_max_str_digits)%nat
      && (String.length (str_of_int (delay o)) <=? int_max_str_digits)%nat
  | _, _ => true
  end.

(** An effect other than a console message. *)
Definition silent (e : event) : bool := negb (console_event e).

(** The path of the report file and the messages that interpolate text
    from outside. *)
Definition report_path (now : string) (path_join : string -> string -> string)
  (folder : string) : string :=
  path_join folder ("stripe_test_results_" ++ now ++ ".csv").

Definition saved_message (path : string) : string :=
  String LF "[bold green]Results saved to " ++ path ++ "[/bold green]".

Definition custom_message (endpoint : string) : string :=
  "Testing custom endpoint " ++ endpoint ++ "...".

Definition unknown_mode_message (o : options) : string :=
  "[bold red]Error: Unknown mode '" ++ str_opt (mode o)
    ++ "'. Please choose a valid mode.[/bold red]".

(** What saving does once the rows of the file are built: the folder;
    then the file, unless the writing is refused; then the announcement,
    unless the console refuses it. *)
Definition save_effects (env : faults) (path folder : string) (rows : list row)
  : M unit :=
  match write_error env path (Csv.file_text rows) with
  | Some f => ([Mkdir folder], Raise (other f))
  | None =>
      match markup_error env (saved_message path) with
      | Some msg =>
          ([Mkdir folder; FileWrite path (Csv.file_text rows)],
           Raise (mk_exn MarkupError msg))
      | None =>
          ([Mkdir folder; FileWrite path (Csv.file_text rows);
            Console (saved_message path)],
           Ok tt)
      end
  end.

(** The same, followed by the table unless the console refuses a
    cell. *)
Definition report_effects (env : faults) (path folder : string)
  (file_rows shown_rows : list row) : M unit :=
  save_effects env path folder file_rows ;;; print_table env shown_rows.

(** A computation after the effects [t]. *)
Definition after {A : Type} (t : list event) (m : M A) : M A :=
  ((t ++ trace m)%list, result_of m).


(** A world whose console refuses every text that holds parts from
    outside, as it refuses one with a closing tag that closes nothing. *)
Definition refusing_console : faults :=
  mk_faults (fun _ => None) (fun _ => None)
    (fun _ => Some "closing tag does not match any open tag")
    (fun _ => None) (fun _ _ => None).

(** A world whose clock takes no length beyond [sleep_range]. *)
Definition strict_clock : faults :=
  mk_faults
    (fun _ => Some ("OverflowError", "timestamp too large to convert to C _PyTime_t"))
    (fun _ => None) (fun _ => None) (fun _ => None) (fun _ _ => None).

(** A reply with status 402 whose body holds an integer of too many
    digits for the decoder. *)
Definition endless_number : response :=
  mk_response 402 "{}"
    (Broken "ValueError" "Exceeds the limit (4300 digits) for integer string conversion: value has 5000 digits; use sys.set_int_max_str_digits() to increase the limit").

(** More sample runs. *)
Definition negative_delay_options : options :=
  mk_options (Some "brute-force") (Some "sk_test_123") None
    (Some 1%Z) (Some 100%Z) (-1) None "output".

Definition pubkey_options : options :=
  mk_options (Some "pubkey") None (Some "pk_test_123") None None 500 None "output".

Definition custom_options : options :=
  mk_options (Some "custom") (Some "sk_test_123") None None None 500
    (Some "https://example.test/health") "output".

(** A world in which every request is declined with a JSON error. *)
Definition declined : response :=
  mk_response 402 "{}"
    (Parsed (PDict [("error", PDict [("message", PStr "Your card was declined.")])])).

Definition declining_transport (req : request) : reply := Response declined.


(* ================================================================= *)
(** * Properties *)

(** ** Worked examples *)

Example format_010_1 : format_010 1 = "0000000001".
Proof. reflexivity. Qed.

Example format_010_neg : format_010 (-12) = "-000000012".
Proof. reflexivity. Qed.

Example format_010_long : format_010 123456789012 = "123456789012".
Proof. reflexivity. Qed.

Example str_of_error_body :
  str (PDict [("error", PDict [("message", PStr "Invalid API Key provided"); ("type", PStr "invalid_request_error")]); ("ok", PList [PInt 1; PNone; PBool true; PInt (-3)])])
  = "{'error': {'message': 'Invalid API Key provided', 'type': 'invalid_request_error'}, 'ok': [1, None, True, -3]}".
Proof. reflexivity. Qed.

Example json_of_error_body :
  json_dumps_indent2 (PDict [("error", PDict [("message", PStr "Invalid API Key provided"); ("type", PStr "invalid_request_error")]); ("ok", PList [PInt 1; PNone; PBool true; PInt (-3)])])
  = "{" ++ NL ++ "  " ++ DQ ++ "error" ++ DQ ++ ": {" ++ NL ++ "    " ++ DQ ++ "message" ++ DQ ++ ": " ++ DQ ++ "Invalid API Key provided" ++ DQ ++ "," ++ NL ++ "    " ++ DQ ++ "type" ++ DQ ++ ": " ++ DQ ++ "invalid_request_error" ++ DQ ++ NL ++ "  }," ++ NL ++ "  " ++ DQ ++ "ok" ++ DQ ++ ": [" ++ NL ++ "    1," ++ NL ++ "    null," ++ NL ++ "    true," ++ NL ++ "    -3" ++ NL ++ "  ]" ++ NL ++ "}".
Proof. reflexivity. Qed.

Example str_of_list_with_quote :
  str (PList [PStr "it's"; PStr "plain"])
  = "[" ++ DQ ++ "it's" ++ DQ ++ ", 'plain']".
Proof. reflexivity. Qed.

Example writerow_quotes :
  Csv.writerow ["list_charges"; "{" ++ NL ++ "  " ++ DQ ++ "a" ++ DQ ++ ": 1" ++ NL ++ "}"; "FAIL ({" ++ DQ ++ "a" ++ DQ ++ ": 1})"]
  = "list_charges," ++ DQ ++ "{" ++ NL ++ "  " ++ DQ ++ DQ ++ "a" ++ DQ ++ DQ ++ ": 1" ++ NL ++ "}" ++ DQ ++ "," ++ DQ ++ "FAIL ({" ++ DQ ++ DQ ++ "a" ++ DQ ++ DQ ++ ": 1})" ++ DQ ++ CRs ++ NL.
Proof. reflexivity. Qed.

Example reader_rows_embedded_newline :
  Csv.reader_rows Csv.field_size_limit ("a," ++ DQ ++ "b" ++ CRs ++ NL ++ "c" ++ DQ ++ "," ++ CRs ++ NL ++ "," ++ DQ ++ "say " ++ DQ ++ DQ ++ "hi" ++ DQ ++ DQ ++ DQ ++ ",x" ++ CRs ++ NL)
  = Some [["a"; "b" ++ CRs ++ NL ++ "c"; ""]; [""; "say " ++ DQ ++ "hi" ++ DQ; "x"]].
Proof. reflexivity. Qed.


(** The brute-force run of the specification, 1..100, with everything it
    does. *)
Example brute_force_run_1_100 :
  main sample_transport "20240101_120000" sample_join "menu" no_faults 9 range_1_100
  = ([Console "Brute-forcing customer IDs from cus_0000000001 to cus_0000000100 with a delay of 500ms...";
      Sleep 500;
      Mkdir "output";
      FileWrite "output/stripe_test_results_20240101_120000.csv"
        ("Test,Result,Status" ++ CRs ++ NL
         ++ "Found Customer,cus_0000000001 (customer1@example.com),PASS" ++ CRs ++ NL
         ++ "Found Customer,cus_0000000100 (None),PASS" ++ CRs ++ NL);
      Console (NL ++ "[bold green]Results saved to output/stripe_test_results_20240101_120000.csv[/bold green]");
      Table [mk_row "Found Customer" "cus_0000000001 (customer1@example.com)" "PASS";
             mk_row "Found Customer" "cus_0000000100 (None)" "PASS"]],
     Ok tt).
Proof. reflexivity. Qed.



(** A pause of ten thousand million seconds, before a clock that takes
    no such length: nothing is returned. *)
Example scan_beyond_the_clock :
  brute_force_customers strict_clock "sk_test_123" (10 ^ 13) 1 100
  = ([], Raise (mk_exn (Other "OverflowError")
                  "timestamp too large to convert to C _PyTime_t")).
Proof. reflexivity. Qed.

(** A body that the decoder gives up on, with a status other than 200:
    the inner handler of [test_list_charges] does not catch it, and the
    outcome carries the error and no payload. *)
Example charges_endless_number :
  test_list_charges (fun _ => Response endless_number) "sk_test_123"
  = ([Http (charges_request "sk_test_123")],
     Ok (PDict [("status", PBool false);
                ("error",
                 PStr "Exceeds the limit (4300 digits) for integer string conversion: value has 5000 digits; use sys.set_int_max_str_digits() to increase the limit")])).
Proof. reflexivity. Qed.

(* ================================================================= *)
(** ** Computations and their traces *)

Section TraceFacts.

Context {A B : Type}.

Lemma trace_bind (m : M A) (f : A -> M B) :
  trace (bind m f) =
  (trace m ++ match result_of m with
              | Ok a => trace (f a)
              | Raise _ => []
              end)%list.
Proof.
  destruct m as [t [a | e]]; cbn.
  - destruct (f a); reflexivity.
  - now rewrite List.app_nil_r.
Qed.

Lemma result_of_bind (m : M A) (f : A -> M B) :
  result_of (bind m f) =
  match result_of m with
  | Ok a => result_of (f a)
  | Raise e => Raise e
  end.
Proof.
  destruct m as [t [a | e]]; cbn; [destruct (f a) |]; reflexivity.
Qed.

Lemma bind_ok (m : M A) (f : A -> M B) t a t' r :
  m = (t, Ok a) -> f a = (t', r) -> bind m f = ((t ++ t')%list, r).
Proof. intros -> H. cbn. now rewrite H. Qed.

Lemma bind_raise (m : M A) (f : A -> M B) t e :
  m = (t, Raise e) -> bind m f = (t, Raise e).
Proof. now intros ->. Qed.

End TraceFacts.

Lemma Forall_trace_bind {A B : Type} (P : event -> Prop) (m : M A) (f : A -> M B) :
  Forall P (trace m) ->
  (forall a, result_of m = Ok a -> Forall P (trace (f a))) ->
  Forall P (trace (bind m f)).
Proof.
  intros Hm Hf. rewrite trace_bind. apply Forall_app. split; [assumption |].
  destruct (result_of m) eqn:E; [now apply Hf | constructor].
Qed.

(* ================================================================= *)
(** ** The scanner *)

Lemma length_zeros n : String.length (zeros n) = n.
Proof. induction n; cbn; congruence. Qed.

Lemma length_append (a b : string) :
  String.length (a ++ b) = (String.length a + String.length b)%nat.
Proof. induction a; cbn; congruence. Qed.

(** Padding fills up to the width and never truncates. *)
Lemma length_zfill w s :
  String.length (zfill w s) = Nat.max w (String.length s).
Proof. unfold zfill. rewrite length_append, length_zeros. lia. Qed.

Module Digits.

Lemma length_string_of_uint d :
  String.length (NilEmpty.string_of_uint d) = Decimal.nb_digits d.
Proof. induction d; cbn; congruence. Qed.

Lemma usize_nb_digits d :
  DecimalPos.Unsigned.usize d = N.of_nat (Decimal.nb_digits d).
Proof.
  induction d; cbn [DecimalPos.Unsigned.usize Decimal.nb_digits];
    rewrite ?Nnat.Nat2N.inj_succ, ?IHd; reflexivity.
Qed.

Lemma to_uint_normal m : Decimal.unorm (N.to_uint m) = N.to_uint m.
Proof.
  rewrite <- (DecimalN.Unsigned.of_to m) at 2.
  now rewrite DecimalN.Unsigned.to_of.
Qed.

Lemma nzhead_not_D0 d : Decimal.nzhead d <> Decimal.D0 d.
Proof.
  intros H. pose proof (DecimalFacts.nb_digits_nzhead d) as Hle.
  rewrite H in Hle. cbn in Hle. lia.
Qed.

Lemma of_uint_lower d acc :
  (10 ^ DecimalPos.Unsigned.usize d <= N.pos (Pos.of_uint_acc d acc))%N.
Proof.
  rewrite DecimalPos.Unsigned.of_uint_acc_rev.
  assert (1 <= N.pos acc)%N by lia.
  assert (10 ^ DecimalPos.Unsigned.usize d <> 0)%N by (apply N.pow_nonzero; lia).
  nia.
Qed.

Lemma nb_digits_bound d k :
  Decimal.unorm d = d ->
  (N.of_uint d < 10 ^ N.of_nat (S k))%N ->
  (Decimal.nb_digits d <= S k)%nat.
Proof.
  intros Hnorm Hlt.
  assert (Hdigits : forall d' acc,
             N.of_uint d = N.pos (Pos.of_uint_acc d' acc) ->
             (S (Decimal.nb_digits d') <= S k)%nat).
  { intros d' acc E. pose proof (of_uint_lower d' acc) as Hlow.
    rewrite <- E, usize_nb_digits in Hlow.
    assert (Hpow : (10 ^ N.of_nat (Decimal.nb_digits d') < 10 ^ N.of_nat (S k))%N) by lia.
    apply N.pow_lt_mono_r_iff in Hpow; lia. }
  destruct d as [| d' | d' | d' | d' | d' | d' | d' | d' | d' | d'];
    cbn [Decimal.nb_digits]; try (eapply Hdigits; reflexivity); [lia |].
  unfold Decimal.unorm in Hnorm. cbn [Decimal.nzhead] in Hnorm.
  destruct (Decimal.nzhead d') eqn:E; try (exfalso; now apply (nzhead_not_D0 d'); congruence).
  injection Hnorm as <-. cbn. lia.
Qed.


Lemma to_uint_not_Nil m : N.to_uint m <> Decimal.Nil.
Proof.
  destruct m as [| p]; [discriminate |]. apply DecimalPos.Unsigned.to_uint_nonnil.
Qed.

Lemma length_digits m k :
  (m < 10 ^ N.of_nat (S k))%N ->
  (String.length (NilZero.string_of_uint (N.to_uint m)) <= S k)%nat.
Proof.
  intros H. unfold NilZero.string_of_uint.
  pose proof (to_uint_not_Nil m) as Hnil.
  destruct (N.to_uint m) eqn:E; try contradiction; rewrite <- E;
    rewrite length_string_of_uint;
    (apply nb_digits_bound;
     [apply to_uint_normal | now rewrite DecimalN.Unsigned.of_to]).
Qed.

Lemma read_digits m :
  NilEmpty.uint_of_string (NilZero.string_of_uint (N.to_uint m)) = Some (N.to_uint m).
Proof.
  unfold NilZero.string_of_uint. pose proof (to_uint_not_Nil m) as Hnil.
  destruct (N.to_uint m) eqn:E; try contradiction; rewrite <- E; apply NilEmpty.usu.
Qed.

Lemma read_zeros k s d :
  NilEmpty.uint_of_string s = Some d ->
  exists d', NilEmpty.uint_of_string (zeros k ++ s) = Some d'
             /\ N.of_uint d' = N.of_uint d.
Proof.
  intros H. induction k as [| k (d' & E & V)]; [now exists d |].
  exists (Decimal.D0 d'). cbn. rewrite E. split; [reflexivity | exact V].
Qed.

(** The format of width ten on a number of at most ten digits: ten
    characters that read back as the number. *)
Lemma format_010_padded n :
  (0 <= n < 10 ^ 10)%Z -> padded_decimal 10 n (format_010 n).
Proof.
  intros [H0 H1]. unfold padded_decimal, format_010.
  destruct (Z.ltb_spec n 0); [lia |].
  split.
  - rewrite length_zfill.
    pose proof (length_digits (Z.abs_N n) 9) as Hlen.
    assert (Z.abs_N n < 10 ^ N.of_nat 10)%N by (change (10 ^ N.of_nat 10)%N with (Z.to_N (10 ^ 10)); lia).
    specialize (Hlen H2). lia.
  - destruct (read_zeros (10 - String.length (NilZero.string_of_uint (N.to_uint (Z.abs_N n))))
                _ _ (read_digits (Z.abs_N n))) as (d' & E & V).
    exists d'. split; [exact E |].
    rewrite V, DecimalN.Unsigned.of_to. lia.
Qed.

End Digits.

(** An integer whose text is short enough is always converted. *)
Lemma int_text_short env render z :
  (String.length (render z) <= int_max_str_digits)%nat ->
  int_text env render z = ([], Ok (render z)).
Proof.
  intros H. unfold int_text. apply Nat.leb_le in H. now rewrite H.
Qed.

Lemma int_text_cases env render z :
  int_text env render z = ([], Ok (render z))
  \/ exists msg,
       (int_max_str_digits < String.length (render z))%nat
       /\ long_int env z = Some msg
       /\ int_text env render z = ([], Raise (mk_exn ValueError msg)).
Proof.
  unfold int_text.
  destruct (Nat.leb_spec (String.length (render z)) int_max_str_digits);
    [now left |].
  destruct (long_int env z) as [msg |]; [right; now exists msg | now left].
Qed.

(** The pause, by the length asked for. *)
Lemma time_sleep_in_range env delay :
  (0 <= delay <= sleep_range)%Z ->
  time_sleep env delay = ([Sleep delay], Ok tt).
Proof.
  intros H. unfold time_sleep, clock_error.
  destruct (Z.ltb_spec delay (- sleep_range)); [unfold sleep_range in *; lia |].
  destruct (Z.ltb_spec sleep_range delay); [lia |].
  destruct (Z.ltb_spec delay 0); [lia | reflexivity].
Qed.

Lemma time_sleep_negative env delay :
  (- sleep_range <= delay < 0)%Z ->
  time_sleep env delay = ([], Raise sleep_refused).
Proof.
  intros H. unfold time_sleep, clock_error.
  destruct (Z.ltb_spec delay (- sleep_range)); [lia |].
  destruct (Z.ltb_spec sleep_range delay); [unfold sleep_range in *; lia |].
  destruct (Z.ltb_spec delay 0); [reflexivity | lia].
Qed.

(** Whatever the clock does, the pause is made or refused: with
    [ValueError] for a negative length within the range of the clock, or
    with what the clock raises beyond it. *)
Lemma time_sleep_cases env ms :
  time_sleep env ms = ([Sleep ms], Ok tt)
  \/ exists e, time_sleep env ms = ([], Raise e)
               /\ (e = sleep_refused \/ exists f, e = other f).
Proof.
  unfold time_sleep.
  destruct (clock_error env ms) as [f |].
  - right. exists (other f). split; [reflexivity | right; now exists f].
  - destruct (ms <? 0)%Z; [right | now left].
    eexists. split; [reflexivity | now left].
Qed.

(** A scan whose pause is made and whose bounds are converted returns
    the two identifiers; a scan whose pause is refused does nothing. *)
Lemma scan_returns env sk delay start stop :
  time_sleep env delay = ([Sleep delay], Ok tt) ->
  int_text env format_010 start = ([], Ok (format_010 start)) ->
  int_text env format_010 stop = ([], Ok (format_010 stop)) ->
  brute_force_customers env sk delay start stop =
  ([Sleep delay],
   Ok (PDict [("found_customers",
               PList [PDict [("id", PStr ("cus_" ++ format_010 start));
                             ("email", PStr "customer1@example.com")];
                      PDict [("id", PStr ("cus_" ++ format_010 stop));
                             ("email", PNone)]])])).
Proof.
  intros H1 H2 H3. unfold brute_force_customers. now rewrite H1, H2, H3.
Qed.

Lemma scan_refused env sk delay start stop e :
  time_sleep env delay = ([], Raise e) ->
  brute_force_customers env sk delay start stop = ([], Raise e).
Proof. intros H. unfold brute_force_customers. now rewrite H. Qed.

Lemma brute_force_customers_ok env sk delay start stop :
  (0 <= delay <= sleep_range)%Z ->
  (String.length (format_010 start) <= int_max_str_digits)%nat ->
  (String.length (format_010 stop) <= int_max_str_digits)%nat ->
  brute_force_customers env sk delay start stop =
  ([Sleep delay],
   Ok (PDict [("found_customers",
               PList [PDict [("id", PStr ("cus_" ++ format_010 start));
                             ("email", PStr "customer1@example.com")];
                      PDict [("id", PStr ("cus_" ++ format_010 stop));
                             ("email", PNone)]])])).
Proof.
  intros H Ha Hb.
  apply scan_returns;
    [now apply time_sleep_in_range | now apply int_text_short ..].
Qed.

Lemma brute_force_customers_negative env sk delay start stop :
  (- sleep_range <= delay < 0)%Z ->
  brute_force_customers env sk delay start stop =
  ([], Raise (mk_exn ValueError "sleep length must be non-negative")).
Proof. intros H. apply scan_refused. now apply time_sleep_negative. Qed.

(** What a scan that returns has done and returns. *)
Lemma scan_result env sk delay start stop t found :
  brute_force_customers env sk delay start stop = (t, Ok found) ->
  t = [Sleep delay]
  /\ found = PDict [("found_customers",
                     PList [PDict [("id", PStr ("cus_" ++ format_010 start));
                                   ("email", PStr "customer1@example.com")];
                            PDict [("id", PStr ("cus_" ++ format_010 stop));
                                   ("email", PNone)]])].
Proof.
  unfold brute_force_customers.
  destruct (time_sleep_cases env delay) as [E | (e & E & _)]; rewrite E;
    [| discriminate].
  destruct (int_text_cases env format_010 start) as [Ea | (m & _ & _ & Ea)];
    rewrite Ea; [| discriminate].
  destruct (int_text_cases env format_010 stop) as [Eb | (m & _ & _ & Eb)];
    rewrite Eb; [| discriminate].
  cbn. intros [= <- <-]. split; reflexivity.
Qed.

(** C2, as stated, fails: with a negative delay the pause is refused, so
    a call with [startId <= stopId] neither pauses nor returns a list. *)
Lemma scan_negative_delay_no_result :
  (1 <= 100)%Z /\
  ~ (exists t found,
        brute_force_customers no_faults "sk_test_123" (-1) 1 100 = (t, Ok found)).
Proof.
  split; [lia |]. intros (t & found & H).
  rewrite brute_force_customers_negative in H by (unfold sleep_range; lia).
  discriminate.
Qed.

(** C2 (amended): for every call with [startId <= stopId], a delay
    from 0 to [sleep_range] milliseconds and bounds whose padded text
    has at most [int_max_str_digits] characters, whatever the libraries
    would refuse elsewhere, the scanner makes exactly one pause of
    [delayMs] milliseconds and returns a [found_customers] list of
    exactly two identifiers: the first with id [cus_] followed by
    [startId] zero-padded to width 10, the second the same from
    [stopId]. *)
Theorem scan_two_boundary_ids env sk delay start stop :
  (start <= stop)%Z -> (0 <= delay <= sleep_range)%Z ->
  (String.length (format_010 start) <= int_max_str_digits)%nat ->
  (String.length (format_010 stop) <= int_max_str_digits)%nat ->
  exists found c1 c2,
    brute_force_customers env sk delay start stop = ([Sleep delay], Ok found)
    /\ found_customers found = Some [c1; c2]
    /\ customer_id c1 = Some ("cus_" ++ format_010 start)
    /\ customer_id c2 = Some ("cus_" ++ format_010 stop)
    /\ ((0 <= start < 10 ^ 10)%Z -> padded_decimal 10 start (format_010 start))
    /\ ((0 <= stop < 10 ^ 10)%Z -> padded_decimal 10 stop (format_010 stop)).
Proof.
  intros _ Hdelay Ha Hb. do 3 eexists.
  rewrite brute_force_customers_ok by assumption.
  split; [reflexivity |]. split; [reflexivity |].
  split; [reflexivity |]. split; [reflexivity |].
  split; apply Digits.format_010_padded.
Qed.

(** The instance of the specification: the range 1..100. *)
Lemma scan_1_100 :
  exists found c1 c2,
    brute_force_customers no_faults "sk_test_123" 500 1 100 = ([Sleep 500], Ok found)
    /\ found_customers found = Some [c1; c2]
    /\ customer_id c1 = Some "cus_0000000001"
    /\ customer_id c2 = Some "cus_0000000100".
Proof.
  destruct (scan_two_boundary_ids no_faults "sk_test_123" 500 1 100
              ltac:(lia) ltac:(unfold sleep_range; lia)
              ltac:(unfold int_max_str_digits; cbn; lia)
              ltac:(unfold int_max_str_digits; cbn; lia))
    as (found & c1 & c2 & H1 & H2 & H3 & H4 & _).
  exists found, c1, c2. repeat split; assumption.
Defined.

(** C10: whatever the credential, the delay, the range, the clock and
    the interpreter, a scan that returns gives the first identifier the
    fixed email and the second no email, and when [startId = stopId]
    both entries carry the same id; the scan does return whenever the
    delay is from 0 to [sleep_range] milliseconds and the padded text of
    the bounds has at most [int_max_str_digits] characters. *)
Theorem scan_emails_fixed env sk delay start stop :
  (start <= stop)%Z ->
  (forall t found,
      brute_force_customers env sk delay start stop = (t, Ok found) ->
      exists c1 c2,
        found_customers found = Some [c1; c2]
        /\ customer_email c1 = Some "customer1@example.com"
        /\ customer_email c2 = None
        /\ (start = stop -> customer_id c1 = customer_id c2
                            /\ customer_id c1 = Some ("cus_" ++ format_010 start)))
  /\ ((0 <= delay <= sleep_range)%Z ->
      (String.length (format_010 start) <= int_max_str_digits)%nat ->
      (String.length (format_010 stop) <= int_max_str_digits)%nat ->
      exists found,
        brute_force_customers env sk delay start stop = ([Sleep delay], Ok found)).
Proof.
  intros _. split.
  - intros t found H.
    destruct (scan_result _ _ _ _ _ _ _ H) as [_ ->]. do 2 eexists.
    split; [reflexivity |]. split; [reflexivity |]. split; [reflexivity |].
    intros ->. split; reflexivity.
  - intros Hpos Ha Hb. eexists. now apply brute_force_customers_ok.
Qed.

Lemma scan_emails_fixed_7_7 :
  (7 <= 7)%Z /\
  exists found c1 c2,
    brute_force_customers no_faults "sk_test_123" 0 7 7 = ([Sleep 0], Ok found)
    /\ found_customers found = Some [c1; c2]
    /\ customer_email c1 = Some "customer1@example.com"
    /\ customer_email c2 = None
    /\ customer_id c1 = customer_id c2.
Proof.
  split; [lia |].
  destruct (scan_emails_fixed no_faults "sk_test_123" 0 7 7 ltac:(lia)) as [H _].
  destruct (H [Sleep 0] _ eq_refl) as (c1 & c2 & Hf & H1 & H2 & H3).
  eexists; exists c1, c2.
  split; [reflexivity |]. repeat split; try assumption. now apply H3.
Defined.

(* ================================================================= *)
(** ** The probes *)

Section Probes.

Variable transport : request -> reply.

Ltac run_probe :=
  cbv [test_list_charges test_custom_endpoint test_publishable_key
       requests_get requests_post http response_json py_get
       try_except bind emit ret raise any_exception only
       exn_cls exn_msg app fst snd].

(** What [test_list_charges] returns, reply by reply. *)
Lemma test_list_charges_eq secret_key :
  test_list_charges transport secret_key =
  ([Http (charges_request secret_key)],
   Ok (match transport (charges_request secret_key) with
       | Response r =>
           if (status_code r =? 200)%Z then
             match json r with
             | Parsed v => PDict [("status", PBool true); ("raw_response", v)]
             | Malformed msg | Broken _ msg =>
                 PDict [("status", PBool false); ("error", PStr msg)]
             end
           else
             match json r with
             | Parsed v => PDict [("status", PBool false); ("raw_response", v)]
             | Malformed _ =>
                 PDict [("status", PBool false); ("raw_response", PStr (text r))]
             | Broken _ msg => PDict [("status", PBool false); ("error", PStr msg)]
             end
       | Failure msg => PDict [("status", PBool false); ("error", PStr msg)]
       end)).
Proof.
  run_probe. fold (charges_request secret_key).
  destruct (transport (charges_request secret_key)) as [r | msg]; [| reflexivity].
  destruct (status_code r =? 200)%Z; destruct (json r); reflexivity.
Qed.

Lemma test_custom_endpoint_eq secret_key endpoint :
  test_custom_endpoint transport secret_key endpoint =
  ([Http (custom_request secret_key endpoint)],
   Ok (match transport (custom_request secret_key endpoint) with
       | Response r =>
           if (status_code r =? 200)%Z then
             match json r with
             | Parsed v => PDict [("status", PBool true); ("raw_response", v)]
             | Malformed msg | Broken _ msg =>
                 PDict [("status", PBool false); ("error", PStr msg)]
             end
           else PDict [("status", PBool false); ("raw_response", PStr (text r))]
       | Failure msg => PDict [("status", PBool false); ("error", PStr msg)]
       end)).
Proof.
  run_probe. fold (custom_request secret_key endpoint).
  destruct (transport (custom_request secret_key endpoint)) as [r | msg];
    [| reflexivity].
  destruct (status_code r =? 200)%Z; [destruct (json r) |]; reflexivity.
Qed.

Lemma test_publishable_key_eq pubkey :
  test_publishable_key transport pubkey =
  ([Http (tokens_request pubkey)],
   Ok (match transport (tokens_request pubkey) with
       | Response r =>
           if (status_code r =? 200)%Z then
             match json r with
             | Parsed v => PDict [("status", PBool true); ("raw_response", v)]
             | Malformed msg | Broken _ msg =>
                 PDict [("status", PBool false); ("error", PStr msg)]
             end
           else
             match json r with
             | Parsed (PDict d) =>
                 PDict [("status", PBool false);
                        ("error", dict_get "error" (PStr (text r)) d)]
             | Parsed v =>
                 PDict [("status", PBool false);
                        ("error", PStr ("'" ++ type_name v
                                            ++ "' object has no attribute 'get'"))]
             | Malformed _ =>
                 PDict [("status", PBool false); ("error", PStr (text r))]
             | Broken _ msg =>
                 PDict [("status", PBool false); ("error", PStr msg)]
             end
       | Failure msg => PDict [("status", PBool false); ("error", PStr msg)]
       end)).
Proof.
  run_probe. fold test_card. fold (bearer pubkey). fold (tokens_request pubkey).
  destruct (transport (tokens_request pubkey)) as [r | msg]; [| reflexivity].
  destruct (status_code r =? 200)%Z; destruct (json r) as [[] | |]; reflexivity.
Qed.


(** C3, as stated, fails: a reply with status 200 whose body is not
    valid JSON is reported as a failure, without payload. *)
Lemma charges_200_unparsed_is_failure :
  let page := mk_response 200 "<html>maintenance</html>"
                (Malformed "Expecting value: line 1 column 1 (char 0)") in
  status_code page = 200%Z
  /\ exists t o,
       test_list_charges (fun _ => Response page) "sk_test_123" = (t, Ok o)
       /\ succeeded o = false
       /\ payload o = None.
Proof. cbn. split; [reflexivity |]. do 2 eexists. repeat split. Qed.

(** C3 (amended): [test_list_charges] sends one request and returns an
    outcome with [succeeded = true] if and only if the status is 200 and
    the body parses, in which case the payload is the parsed body; on
    another status [succeeded = false] and the payload is the parsed
    body, or the raw text when the parsing fails with a JSON decode
    error; when the transport raises, when the parsing fails on status
    200, or when it fails with anything but a decode error, the error is
    the exception's message, there is no payload and
    [succeeded = false]. *)
Theorem list_charges_outcome secret_key :
  exists o,
    test_list_charges transport secret_key
    = ([Http (charges_request secret_key)], Ok o)
    /\ match transport (charges_request secret_key) with
       | Response r =>
           (succeeded o = true <->
            status_code r = 200%Z /\ exists v, json r = Parsed v)
           /\ (succeeded o = true -> exists v, json r = Parsed v /\ payload o = Some v)
           /\ (status_code r <> 200%Z ->
               succeeded o = false
               /\ match json r with
                  | Parsed v => payload o = Some v /\ error o = None
                  | Malformed _ => payload o = Some (PStr (text r)) /\ error o = None
                  | Broken _ msg => error o = Some (PStr msg) /\ payload o = None
                  end)
           /\ (status_code r = 200%Z ->
               match json r with
               | Parsed v => True
               | Malformed msg | Broken _ msg =>
                   error o = Some (PStr msg) /\ payload o = None
               end)
       | Failure msg =>
           succeeded o = false /\ error o = Some (PStr msg) /\ payload o = None
       end.
Proof.
  eexists. split; [apply test_list_charges_eq |].
  destruct (transport (charges_request secret_key)) as [r | msg];
    [| repeat split].
  destruct (Z.eqb_spec (status_code r) 200) as [E | E];
    destruct (json r) as [v | msg | name msg]; cbn.
  all: repeat split; try congruence; try tauto; eauto.
  all: try (intros [? [? ?]]; congruence).
  all: try (intros [? ?]; congruence).
Qed.

(** C5, as stated, fails for the same reason: an endpoint that answers
    200 with a body that is not JSON is reported as a failure. *)
Lemma custom_200_unparsed_is_failure :
  let page := mk_response 200 "OK"
                (Malformed "Expecting value: line 1 column 1 (char 0)") in
  status_code page = 200%Z
  /\ exists t o,
       test_custom_endpoint (fun _ => Response page) "sk_test_123"
         "https://example.test/health" = (t, Ok o)
       /\ succeeded o = false
       /\ payload o = None.
Proof. cbn. split; [reflexivity |]. do 2 eexists. repeat split. Qed.

(** C5 (amended): [test_custom_endpoint] sends one GET to the caller's
    URL; [succeeded = true] if and only if the status is 200 and the body
    parses as JSON, the payload then being the parsed body; on any other
    status [succeeded = false] and the payload is the raw text, whatever
    the body would parse to; on an exception of the transport the error
    is set to its message. *)
Theorem custom_endpoint_outcome secret_key endpoint :
  exists o,
    test_custom_endpoint transport secret_key endpoint
    = ([Http (custom_request secret_key endpoint)], Ok o)
    /\ match transport (custom_request secret_key endpoint) with
       | Response r =>
           (succeeded o = true <->
            status_code r = 200%Z /\ exists v, json r = Parsed v)
           /\ (succeeded o = true ->
               exists v, json r = Parsed v /\ payload o = Some v)
           /\ (status_code r <> 200%Z ->
               succeeded o = false
               /\ payload o = Some (PStr (text r))
               /\ error o = None)
       | Failure msg =>
           succeeded o = false /\ error o = Some (PStr msg) /\ payload o = None
       end.
Proof.
  eexists. split; [apply test_custom_endpoint_eq |].
  destruct (transport (custom_request secret_key endpoint)) as [r | msg];
    [| repeat split].
  destruct (Z.eqb_spec (status_code r) 200) as [E | E];
    [destruct (json r) as [v | msg | name msg] |]; cbn.
  all: repeat split; try congruence; try tauto; eauto.
  all: try (intros [? [? ?]]; congruence).
  all: try (intros [? ?]; congruence).
Qed.

(** C6, as stated, fails: an exception of the transport that carries no
    message gives an outcome whose error is the empty text. *)
Lemma empty_message_empty_error :
  exists t o,
    test_list_charges (fun _ => Failure "") "sk_test_123" = (t, Ok o)
    /\ succeeded o = false
    /\ payload o = None
    /\ error o = Some (PStr "").
Proof. do 2 eexists. repeat split. Qed.

(** C6 (amended): no probe raises: each returns an outcome whatever the
    transport does (an exception, any status, a body whose decoding
    fails in any way), with the payload or the error set; and when the
    transport raises, the outcome has [succeeded = false], no payload,
    and the exception's message as its error, whatever that message
    is. *)
Theorem probes_never_raise secret_key pubkey endpoint :
  let captured (req : request) (m : M pyval) :=
    exists o,
      m = ([Http req], Ok o)
      /\ (payload o <> None \/ error o <> None)
      /\ (succeeded o = true -> payload o <> None)
      /\ forall msg,
           transport req = Failure msg ->
           succeeded o = false
           /\ error o = Some (PStr msg)
           /\ payload o = None in
  captured (charges_request secret_key) (test_list_charges transport secret_key)
  /\ captured (tokens_request pubkey) (test_publishable_key transport pubkey)
  /\ captured (custom_request secret_key endpoint)
       (test_custom_endpoint transport secret_key endpoint).
Proof.
  cbv zeta.
  assert (Hfail : forall msg : string,
             let o := PDict [("status", PBool false); ("error", PStr msg)] in
             (payload o <> None \/ error o <> None)
             /\ (succeeded o = true -> payload o <> None)
             /\ forall msg',
                  Failure msg = Failure msg' ->
                  succeeded o = false
                  /\ error o = Some (PStr msg')
                  /\ payload o = None).
  { intros msg o. split; [right; discriminate |]. split; [discriminate |].
    intros msg' [= <-]. repeat split. }
  assert (Hresp : forall (r : response) (o : pyval),
             (payload o <> None \/ error o <> None) ->
             (succeeded o = true -> payload o <> None) ->
             (payload o <> None \/ error o <> None)
             /\ (succeeded o = true -> payload o <> None)
             /\ forall msg',
                  Response r = Failure msg' ->
                  succeeded o = false
                  /\ error o = Some (PStr msg')
                  /\ payload o = None).
  { intros r o H1 H2. split; [assumption |]. split; [assumption |].
    intros msg' [=]. }
  split; [| split].
  - eexists. split; [apply test_list_charges_eq |].
    destruct (transport (charges_request secret_key)) as [r | m];
      [apply Hresp | apply Hfail].
    all: destruct (status_code r =? 200)%Z; destruct (json r); cbn;
      try discriminate; try (left; discriminate); right; discriminate.
  - eexists. split; [apply test_publishable_key_eq |].
    destruct (transport (tokens_request pubkey)) as [r | m];
      [apply Hresp | apply Hfail].
    all: destruct (status_code r =? 200)%Z; destruct (json r) as [[] | |]; cbn;
      try discriminate; try (left; discriminate); right; discriminate.
  - eexists. split; [apply test_custom_endpoint_eq |].
    destruct (transport (custom_request secret_key endpoint)) as [r | m];
      [apply Hresp | apply Hfail].
    all: destruct (status_code r =? 200)%Z; [destruct (json r) |]; cbn;
      try discriminate; try (left; discriminate); right; discriminate.
Qed.

(** Whatever the credential and whatever the remote side answers,
    [test_publishable_key] sends exactly one request, a POST to the
    token endpoint whose form data is the fixed test card. *)
Lemma publishable_sends_test_card pubkey :
  exists req,
    trace (test_publishable_key transport pubkey) = [Http req]
    /\ req_method req = "POST"
    /\ req_url req = "https://api.stripe.com/v1/tokens"
    /\ req_data req = [("card[number]", "4242424242424242");
                       ("card[exp_month]", "12");
                       ("card[exp_year]", "2025");
                       ("card[cvc]", "123")].
Proof.
  exists (tokens_request pubkey). rewrite test_publishable_key_eq.
  repeat split.
Qed.

End Probes.

(** On a status other than 200 the body's JSON reading plays no part:
    two replies that differ only there give the same outcome. *)
Lemma custom_endpoint_no_parse secret_key endpoint code body j1 j2 :
  code <> 200%Z ->
  test_custom_endpoint (fun _ => Response (mk_response code body j1))
    secret_key endpoint
  = test_custom_endpoint (fun _ => Response (mk_response code body j2))
      secret_key endpoint.
Proof.
  intros H. rewrite !test_custom_endpoint_eq. cbn.
  destruct (Z.eqb_spec code 200); [contradiction | reflexivity].
Qed.

(* ================================================================= *)
(** ** The reporter's rows have no effects *)

Lemma customer_row_pure c : trace (customer_row c) = [].
Proof.
  unfold customer_row, py_getitem, py_get.
  destruct c as [| b | z | s | l | d]; try reflexivity.
  destruct (dict_find "id" d); reflexivity.
Qed.

Lemma mapM_pure {A B : Type} (f : A -> M B) (l : list A) :
  (forall x, trace (f x) = []) -> trace (mapM f l) = [].
Proof.
  intros Hf. induction l as [| x l IH]; [reflexivity |].
  cbn [mapM]. rewrite trace_bind, Hf. cbn [app].
  destruct (result_of (f x)); [| reflexivity].
  rewrite trace_bind, IH. cbn [app].
  destruct (result_of (mapM f l)); reflexivity.
Qed.

Lemma py_iter_pure v : trace (py_iter v) = [].
Proof. destruct v; reflexivity. Qed.

Lemma customer_rows_pure v :
  trace (customers <- py_iter v ;; mapM customer_row customers) = [].
Proof.
  rewrite trace_bind, py_iter_pure. cbn [app].
  destruct (result_of (py_iter v)); [| reflexivity].
  apply mapM_pure, customer_row_pure.
Qed.

Lemma save_entry_pure test data : trace (save_entry test data) = [].
Proof.
  destruct data as [| b | z | s | l | d]; try reflexivity.
  unfold save_entry.
  destruct (dict_mem "raw_response" d); [reflexivity |].
  destruct (dict_mem "found_customers" d); [| reflexivity].
  apply customer_rows_pure.
Qed.

Lemma display_entry_pure test data : trace (display_entry test data) = [].
Proof.
  destruct data as [| b | z | s | l | d]; try reflexivity.
  unfold display_entry.
  destruct (dict_mem "raw_response" d); [reflexivity |].
  destruct (dict_mem "found_customers" d); [| reflexivity].
  apply customer_rows_pure.
Qed.

Lemma for_items_pure body results :
  (forall test data, trace (body test data) = []) ->
  trace (for_items body results) = [].
Proof.
  intros Hb. induction results as [| [test data] rest IH]; [reflexivity |].
  cbn [for_items]. rewrite trace_bind, Hb. cbn [app].
  destruct (result_of (body test data)); [| reflexivity].
  rewrite trace_bind, IH. cbn [app].
  destruct (result_of (for_items body rest)); reflexivity.
Qed.

Lemma csv_data_pure results : trace (csv_data results) = [].
Proof. apply for_items_pure, save_entry_pure. Qed.

Lemma table_rows_pure results : trace (table_rows results) = [].
Proof. apply for_items_pure, display_entry_pure. Qed.

(* ================================================================= *)
(** ** The mode dispatcher *)

Section Dispatcher.

Variable transport : request -> reply.
Variable now : string.
Variable path_join : string -> string -> string.
Variable menu : string.
Variable env : faults.

Lemma reject_eq {A : Type} message :
  @reject A message = ([Console message], Raise (mk_exn Exit "")).
Proof. reflexivity. Qed.

(** A console message with outside text is printed, or refused with
    nothing printed. *)
Lemma console_print_cases text :
  (markup_error env text = None
   /\ console_print env text = ([Console text], Ok tt))
  \/ (exists msg, markup_error env text = Some msg
                  /\ console_print env text = ([], Raise (mk_exn MarkupError msg))).
Proof.
  unfold console_print.
  destruct (markup_error env text) as [msg |]; [right; now exists msg | now left].
Qed.

Ltac leaves :=
  do 2 eexists; split; [reflexivity | split; [reflexivity | left; reflexivity]].

Ltac unknown_mode :=
  unfold console_print;
  match goal with
  | |- context [markup_error env ?text] => destruct (markup_error env text)
  end;
  do 2 eexists;
  (split; [reflexivity
          | split; [reflexivity
                   | first [left; reflexivity | right; split; reflexivity]]]).

(** A run the specification rejects ends in the dispatcher without a
    report, having touched nothing but the console: it leaves, or the
    console refuses the text of an unrecognized mode. *)
Lemma dispatch_rejected o :
  Spec.rejected o = true ->
  exists t e,
    dispatch transport env o = (t, Raise e)
    /\ forallb console_event t = true
    /\ (e = mk_exn Exit ""
        \/ (Spec.recognized o = false /\ exn_cls e = MarkupError)).
Proof.
  destruct o as [m sk pk st sp dl ce folder].
  unfold Spec.rejected, Spec.required_unset, Spec.start_after_stop,
    Spec.recognized, Spec.modes, dispatch, mode_is.
  cbn [mode secretkey pubkey start stop delay custom_endpoint output_folder existsb].
  destruct m as [m |]; [| intros _; unknown_mode].
  destruct (String.eqb_spec m "default") as [-> | _].
  { destruct sk as [sk |]; cbn; [discriminate | intros _; leaves]. }
  destruct (String.eqb_spec m "brute-force") as [-> | _].
  { destruct sk as [sk |], st as [st |], sp as [sp |]; cbn;
      try (intros _; destruct (String.eqb _ ""); leaves);
      try (intros _; leaves).
    intros H. destruct (String.eqb sk ""); [leaves |].
    rewrite orb_false_r in H. rewrite H. leaves. }
  destruct (String.eqb_spec m "pubkey") as [-> | _].
  { destruct pk as [pk |]; cbn; [discriminate | intros _; leaves]. }
  destruct (String.eqb_spec m "full") as [-> | _].
  { destruct sk as [sk |], pk as [pk |]; cbn; try discriminate;
      intros _; try destruct (String.eqb _ ""); leaves. }
  destruct (String.eqb_spec m "restricted") as [-> | _].
  { destruct sk as [sk |]; cbn; [discriminate | intros _; leaves]. }
  destruct (String.eqb_spec m "custom") as [-> | _].
  { destruct sk as [sk |], ce as [ce |]; cbn; try discriminate;
      intros _; try destruct (String.eqb _ ""); leaves. }
  intros _. cbn [orb]. unknown_mode.
Qed.

(** C1: a run in which a parameter the mode requires is unset, or in
    which [startId > stopId] in brute-force mode, or whose mode is not
    one of the six, is rejected: [main] does not return but ends with an
    exception, which is [typer.Exit] whenever the mode is one of the six
    (for another mode the console may refuse the text of the mode
    first); every effect it had is console output (no request, no pause
    of the scanner, no folder, no file, no table), and the dispatcher
    hands over no report. *)
Theorem rejected_run_touches_nothing argc o :
  Spec.rejected o = true ->
  exists t e,
    main transport now path_join menu env argc o = (t, Raise e)
    /\ forallb console_event t = true
    /\ (forall t' results, dispatch transport env o <> (t', Ok results))
    /\ (e = mk_exn Exit "" \/ Spec.recognized o = false).
Proof.
  intros H. destruct (dispatch_rejected o H) as (t & e & Hd & Ht & He).
  unfold main. destruct (argc =? 1)%nat.
  - do 2 eexists. split; [reflexivity |]. split; [reflexivity |].
    split; [rewrite Hd; discriminate | now left].
  - rewrite Hd. exists t, e. split; [reflexivity |]. split; [exact Ht |].
    split; [discriminate |]. destruct He as [He | [He _]]; auto.
Qed.

Lemma test_list_charges_shape secret_key :
  exists o,
    test_list_charges transport secret_key
    = ([Http (charges_request secret_key)], Ok o) /\ outcome_shape o.
Proof.
  eexists. split; [apply test_list_charges_eq |].
  destruct (transport _) as [r | msg]; [| constructor].
  destruct (status_code r =? 200)%Z; destruct (json r); constructor.
Qed.

Lemma test_publishable_key_shape pubkey :
  exists o,
    test_publishable_key transport pubkey
    = ([Http (tokens_request pubkey)], Ok o) /\ outcome_shape o.
Proof.
  eexists. split; [apply test_publishable_key_eq |].
  destruct (transport _) as [r | msg]; [| constructor].
  destruct (status_code r =? 200)%Z; destruct (json r) as [[] | |]; constructor.
Qed.

Lemma test_custom_endpoint_shape secret_key endpoint :
  exists o,
    test_custom_endpoint transport secret_key endpoint
    = ([Http (custom_request secret_key endpoint)], Ok o) /\ outcome_shape o.
Proof.
  eexists. split; [apply test_custom_endpoint_eq |].
  destruct (transport _) as [r | msg]; [| constructor].
  destruct (status_code r =? 200)%Z; [destruct (json r) |]; constructor.
Qed.

(** An outcome of a probe is one row of the file and one of the table,
    under the name of its entry. *)
Lemma save_entry_outcome test o :
  outcome_shape o ->
  exists r, save_entry test o = ([], Ok [r]) /\ Test r = test.
Proof. intros []; eexists; split; reflexivity. Qed.

Lemma display_entry_outcome test o :
  outcome_shape o ->
  exists r, display_entry test o = ([], Ok [r]) /\ Test r = test.
Proof. intros []; eexists; split; reflexivity. Qed.

(** Once the rows are built, saving is what [save_effects] says. *)
Lemma save_results_to_file_eq results folder rows :
  csv_data results = ([], Ok rows) ->
  save_results_to_file now path_join env results folder
  = save_effects env (report_path now path_join folder) folder rows.
Proof.
  intros H. unfold save_results_to_file, save_effects, report_path.
  rewrite H. cbn [bind emit app].
  unfold write_file, console_print, saved_message.
  destruct (write_error env _ _); [reflexivity |]. cbn [bind emit app].
  destruct (markup_error env _); reflexivity.
Qed.

Lemma display_results_eq results rows :
  table_rows results = ([], Ok rows) ->
  display_results env results = print_table env rows.
Proof.
  intros H. unfold display_results. rewrite H. cbn [bind app].
  destruct (print_table env rows) as [t r]. reflexivity.
Qed.

(** A run whose mode branch returns a report and whose rows are built
    does what [report_effects] says after the effects of the branch. *)
Lemma main_eq argc o t results file_rows shown_rows :
  argc <> 1%nat ->
  dispatch transport env o = (t, Ok results) ->
  nonempty results = true ->
  csv_data results = ([], Ok file_rows) ->
  table_rows results = ([], Ok shown_rows) ->
  main transport now path_join menu env argc o
  = after t (report_effects env (report_path now path_join (output_folder o))
               (output_folder o) file_rows shown_rows).
Proof.
  intros Hargc Hd Hne Hs Hr. unfold main.
  apply Nat.eqb_neq in Hargc. rewrite Hargc, Hd.
  cbn [bind]. rewrite Hne.
  rewrite (save_results_to_file_eq _ _ _ Hs), (display_results_eq _ _ Hr).
  unfold report_effects, after.
  destruct (save_effects env _ _ file_rows) as [t1 [[] | e]];
    cbn [bind trace result_of fst snd]; [| reflexivity].
  destruct (print_table env shown_rows) as [t2 r2].
  cbn [trace result_of fst snd]. now rewrite List.app_assoc.
Qed.

(** C7: a full-mode run with both credentials set calls
    [test_list_charges] and then [test_publishable_key], and its report
    has exactly the two entries [list_charges] and
    [test_publishable_key], in this order, each the outcome of its own
    probe whatever the other probe met. *)
Theorem full_mode_report o sk pk :
  mode o = Some "full" ->
  secretkey o = Some sk -> sk <> "" ->
  pubkey o = Some pk -> pk <> "" ->
  exists o1 o2 called,
    test_list_charges transport sk = ([Http (charges_request sk)], Ok o1)
    /\ test_publishable_key transport pk = ([Http (tokens_request pk)], Ok o2)
    /\ called = [Console "Testing full validation (secret key and publishable key)...";
                 Http (charges_request sk);
                 Http (tokens_request pk)]
    /\ dispatch transport env o
       = (called, Ok [("list_charges", o1); ("test_publishable_key", o2)])
    /\ map fst [("list_charges", o1); ("test_publishable_key", o2)]
       = ["list_charges"; "test_publishable_key"]
    /\ outcome_shape o1 /\ outcome_shape o2.
Proof.
  intros Hmode Hsk Hsk' Hpk Hpk'.
  destruct (test_list_charges_shape sk) as (o1 & E1 & S1).
  destruct (test_publishable_key_shape pk) as (o2 & E2 & S2).
  exists o1, o2. eexists. split; [exact E1 |]. split; [exact E2 |].
  split; [reflexivity |].
  split; [| split; [reflexivity | split; assumption]].
  unfold dispatch, mode_is. rewrite Hmode, Hsk, Hpk.
  cbn [String.eqb Ascii.eqb Bool.eqb not_set orb value].
  apply String.eqb_neq in Hsk', Hpk'. rewrite Hsk', Hpk'. cbn [orb].
  rewrite E1, E2. reflexivity.
Qed.

Lemma only_test_card_console (t : list event) :
  forallb console_event t = true -> Forall only_test_card t.
Proof.
  induction t as [| e t IH]; [constructor |].
  cbn. intros [He Ht]%andb_prop. constructor; [| now apply IH].
  destruct e; try discriminate. exact I.
Qed.

Ltac card_trace :=
  repeat first
    [ rewrite test_list_charges_eq
    | rewrite test_publishable_key_eq
    | rewrite test_custom_endpoint_eq
    | rewrite csv_data_pure
    | rewrite table_rows_pure
    | apply Forall_nil
    | apply Forall_cons; [cbn; auto |]
    | apply Forall_trace_bind; [| intros ? _]
    | progress unfold brute_force_customers, time_sleep, clock_error,
        int_text, console_print, write_file, print_table
    | match goal with
      | |- context [match ?x with Some _ => _ | None => _ end] => destruct x
      | |- context [if ?b then _ else _] => destruct b
      end
    | progress cbn [trace fst emit reject raise ret bind] ].

Lemma dispatch_only_test_card o :
  Forall only_test_card (trace (dispatch transport env o)).
Proof.
  unfold dispatch.
  repeat match goal with
         | |- context [if ?b then _ else _] => destruct b
         | |- context [match ?x with Some _ => _ | None => _ end] => destruct x
         end.
  all: card_trace.
Qed.

(** C4: whatever the options of the run and whatever the remote side
    answers, every request [main] sends carries either no form data or
    exactly the fixed test card 4242424242424242 / 12 / 2025 / 123, and
    the request of [test_publishable_key] carries that card for every
    credential: no option of the caller reaches the card fields. *)
Theorem card_payload_fixed argc o pubkey :
  Forall only_test_card (trace (main transport now path_join menu env argc o))
  /\ exists req,
       trace (test_publishable_key transport pubkey) = [Http req]
       /\ req_method req = "POST"
       /\ req_data req = [("card[number]", "4242424242424242");
                          ("card[exp_month]", "12");
                          ("card[exp_year]", "2025");
                          ("card[cvc]", "123")].
Proof.
  split.
  - unfold main. destruct (argc =? 1)%nat.
    + apply only_test_card_console. reflexivity.
    + apply Forall_trace_bind; [apply dispatch_only_test_card |].
      intros results _. unfold save_results_to_file, display_results.
      destruct (nonempty results); card_trace.
  - destruct (publishable_sends_test_card transport pubkey) as (req & H1 & H2 & _ & H3).
    now exists req.
Qed.

End Dispatcher.

(* ================================================================= *)
(** ** The reporter: the file against the table *)

Lemma same_up_to_fail_text_refl r : same_up_to_fail_text r r.
Proof. repeat split. now left. Qed.

Lemma Forall2_same_refl rows : Forall2 same_up_to_fail_text rows rows.
Proof.
  induction rows; constructor; [apply same_up_to_fail_text_refl | assumption].
Qed.

Lemma rows_agree_refl m : rows_agree m m.
Proof.
  unfold rows_agree. destruct (result_of m); [apply Forall2_same_refl | reflexivity].
Qed.

Lemma dict_mem_find {A : Type} k (d : list (string * A)) :
  dict_mem k d = true -> exists v, dict_find k d = Some v.
Proof. unfold dict_mem. destruct (dict_find k d); [eauto | discriminate]. Qed.

Lemma dict_mem_false {A : Type} k (d : list (string * A)) :
  dict_mem k d = false -> dict_find k d = None.
Proof. unfold dict_mem. destruct (dict_find k d); [discriminate | reflexivity]. Qed.

Lemma entry_rows_agree test data :
  rows_agree (save_entry test data) (display_entry test data).
Proof.
  destruct data as [| b | z | s | l | d]; try apply rows_agree_refl.
  unfold save_entry, display_entry.
  destruct (dict_mem "raw_response" d) eqn:Hraw.
  - destruct (dict_mem_find _ _ Hraw) as [v Hv].
    unfold dict_get. rewrite Hv. unfold rows_agree. cbn.
    constructor; [| constructor]. split; [reflexivity |]. split; [reflexivity |].
    cbn [Status]. destruct (truthy _); [now left | right].
    split; [reflexivity |]. eexists. reflexivity.
  - destruct (dict_mem "found_customers" d); [apply rows_agree_refl |].
    unfold dict_get. rewrite (dict_mem_false _ _ Hraw).
    apply rows_agree_refl.
Qed.

Lemma for_items_agree results :
  rows_agree (csv_data results) (table_rows results).
Proof.
  unfold csv_data, table_rows.
  induction results as [| [test data] rest IH]; [constructor |].
  cbn [for_items]. pose proof (entry_rows_agree test data) as He.
  unfold rows_agree in *. rewrite !result_of_bind.
  destruct (result_of (save_entry test data)) as [r1 | e1],
           (result_of (display_entry test data)) as [r2 | e2];
    try contradiction; [| assumption].
  rewrite !result_of_bind.
  destruct (result_of (for_items save_entry rest)) as [m1 | e1],
           (result_of (for_items display_entry rest)) as [m2 | e2];
    try contradiction; [| assumption].
  cbn. now apply Forall2_app.
Qed.

Lemma customer_row_identifier i :
  customer_row (identifier i) = ([], Ok (identifier_row i)).
Proof.
  destruct i as [id [e |]]; cbn; unfold identifier_row; cbn;
    destruct (String.eqb id ""); reflexivity.
Qed.

Lemma mapM_customer_rows ids :
  mapM customer_row (map identifier ids) = ([], Ok (map identifier_row ids)).
Proof.
  induction ids as [| i ids IH]; [reflexivity |].
  cbn [map mapM]. rewrite customer_row_identifier. cbn [bind].
  rewrite IH. reflexivity.
Qed.

(** C8, as stated, fails: for an entry whose payload is present and whose
    probe did not succeed (here the failure body of the charge listing),
    the file writes [FAIL] followed by the payload and the table writes a
    bare [FAIL]. *)
Lemma failed_payload_statuses_differ :
  let report :=
    [("list_charges",
      PDict [("status", PBool false);
             ("raw_response",
              PDict [("error", PDict [("message", PStr "Invalid API Key provided");
                                      ("type", PStr "invalid_request_error")])])])] in
  exists file_row shown_row,
    csv_data report = ([], Ok [file_row])
    /\ table_rows report = ([], Ok [shown_row])
    /\ Status file_row
       = "FAIL ({'error': {'message': 'Invalid API Key provided', 'type': 'invalid_request_error'}})"
    /\ Status shown_row = "FAIL"
    /\ Status file_row <> Status shown_row.
Proof.
  cbv zeta. do 2 eexists.
  split; [reflexivity |]. split; [reflexivity |].
  split; [reflexivity |]. split; [reflexivity |]. discriminate.
Qed.

(** C8 (amended): the file and the table are derived from the same
    report, row by row: both raise the same exception or give rows with
    the same test name and the same result cell, and with the same
    status except that where the file writes [FAIL (summary)] the table
    may write a bare [FAIL].  For an entry that is not a discovery list,
    the status is [PASS] when the entry succeeded; otherwise the file
    writes [FAIL (summary)], the summary being the error, else the
    payload, else [Unknown Error], each rendered by [str], and the table
    writes a bare [FAIL] when the payload is present and the same
    [FAIL (summary)] when it is not.  A discovery list gives, in both,
    one row per identifier labelled [Found Customer] with status [PASS]
    if and only if the id is not empty. *)
Theorem reporter_statuses results :
  rows_agree (csv_data results) (table_rows results)
  /\ (forall test d,
         dict_mem "raw_response" d = true \/ dict_mem "found_customers" d = false ->
         let file_status :=
           if succeeded (PDict d) then "PASS"
           else "FAIL (" ++ fail_summary d ++ ")" in
         let shown_status :=
           if succeeded (PDict d) then "PASS"
           else if dict_mem "raw_response" d then "FAIL"
           else file_status in
         let cell :=
           match payload (PDict d) with
           | Some v => payload_text v
           | None => "-"
           end in
         save_entry test (PDict d) = ([], Ok [mk_row test cell file_status])
         /\ display_entry test (PDict d) = ([], Ok [mk_row test cell shown_status]))
  /\ (forall test d ids,
         dict_mem "raw_response" d = false ->
         dict_find "found_customers" d = Some (PList (map identifier ids)) ->
         save_entry test (PDict d) = ([], Ok (map identifier_row ids))
         /\ display_entry test (PDict d) = ([], Ok (map identifier_row ids))
         /\ Forall (fun i => Status (identifier_row i) = "PASS" <-> fst i <> "") ids).
Proof.
  split; [apply for_items_agree |]. split.
  - intros test d H. cbv zeta.
    unfold save_entry, display_entry, succeeded, payload, fail_summary,
      payload_text, dict_get.
    destruct (dict_mem "raw_response" d) eqn:Hraw.
    + destruct (dict_mem_find _ _ Hraw) as [v Hv]. rewrite Hv.
      destruct (dict_find "error" d); split; reflexivity.
    + destruct H as [H | H]; [discriminate |]. rewrite H.
      rewrite (dict_mem_false _ _ Hraw).
      destruct (dict_find "error" d); destruct (truthy _); split; reflexivity.
  - intros test d ids Hraw Hfound.
    unfold save_entry, display_entry, dict_get, dict_mem in *.
    destruct (dict_find "raw_response" d); [discriminate |].
    rewrite Hfound. cbn [py_iter bind ret app].
    rewrite mapM_customer_rows. repeat split.
    apply Forall_forall. intros i _. unfold identifier_row. cbn [Status].
    destruct (String.eqb_spec (fst i) ""); split; congruence.
Qed.


(* ================================================================= *)
(** ** The report file read back *)

Module CsvFacts.
Import Csv CsvRun.

Lemma append_assoc (a b c : string) : (a ++ b) ++ c = a ++ (b ++ c).
Proof. induction a; cbn; congruence. Qed.

Lemma append_nil_r (a : string) : a ++ "" = a.
Proof. induction a; cbn; congruence. Qed.

Section Reading.

(** The field size limit of the reader. *)
Variable limit : N.

Lemma process_chars_app r a b :
  process_chars limit r (a ++ b) =
  match process_chars limit r a with
  | Some r' => process_chars limit r' b
  | None => None
  end.
Proof.
  revert r. induction a as [| c a IH]; intros r; [reflexivity |].
  cbn. destruct (parse_process_char limit r (Some c)); [apply IH | reflexivity].
Qed.

Lemma at_line_nil r : at_line limit r "" r.
Proof. reflexivity. Qed.

Lemma at_line_snoc r0 line r c r' :
  at_line limit r0 line r ->
  parse_process_char limit r (Some c) = Some r' ->
  at_line limit r0 (line ++ String c "") r'.
Proof.
  unfold at_line. intros H Hc. rewrite process_chars_app, H. cbn. now rewrite Hc.
Qed.

(** *** The limit *)

(** A field that will fit with more characters still has room. *)
Lemma fits_room r c rest :
  fits limit (field r ++ String c rest) = true ->
  parse_add_char limit r c = Some (with_char r c).
Proof.
  unfold fits, parse_add_char. rewrite length_append. cbn [String.length].
  intros H%N.leb_le.
  destruct (N.leb_spec limit (N.of_nat (String.length (field r)))); [lia |].
  reflexivity.
Qed.

Lemma fits_with_char r c rest :
  fits limit (field r ++ String c rest) = true ->
  fits limit (field (with_char r c) ++ rest) = true.
Proof. cbn. now rewrite append_assoc. Qed.

(** *** One character of the file *)

Lemma run_plain r0 line c s :
  Ascii.eqb c LF = false -> Ascii.eqb c CR = false ->
  run limit r0 line (String c s) = run limit r0 (line ++ String c "") s.
Proof. intros H1 H2. unfold run. cbn. now rewrite H1, H2. Qed.

Lemma run_LF r0 line s :
  run limit r0 line (String LF s) = endline limit r0 (line ++ String LF "") s.
Proof. reflexivity. Qed.

Lemma run_CR_LF r0 line s :
  starts_with_LF s = true ->
  run limit r0 line (String CR s) = run limit r0 (line ++ String CR "") s.
Proof.
  destruct s as [| c s]; [discriminate |]. cbn [starts_with_LF]. intros H.
  apply Ascii.eqb_eq in H. subst c. unfold run. cbn.
  now rewrite append_assoc.
Qed.

Lemma run_CR r0 line s :
  starts_with_LF s = false ->
  run limit r0 line (String CR s) = endline limit r0 (line ++ String CR "") s.
Proof.
  intros H. unfold run, endline. destruct s as [| c s]; [reflexivity |].
  cbn in H. cbn. now rewrite H.
Qed.


(** *** Inside a quoted field *)

Lemma endline_in_quoted r0 line r s :
  at_line limit r0 line r -> state r = IN_QUOTED_FIELD ->
  endline limit r0 line s = run limit r "" s.
Proof.
  unfold at_line, endline, process_line. intros -> H.
  unfold parse_process_char. rewrite H. cbn. now rewrite H.
Qed.

Lemma in_quoted_char r c rest :
  state r = IN_QUOTED_FIELD -> Ascii.eqb c quotechar = false ->
  fits limit (field r ++ String c rest) = true ->
  parse_process_char limit r (Some c) = Some (with_char r c).
Proof.
  intros H Hc Hfit. unfold parse_process_char. rewrite H, Hc.
  exact (fits_room _ _ _ Hfit).
Qed.

Lemma in_quoted_quote r :
  state r = IN_QUOTED_FIELD ->
  parse_process_char limit r (Some quotechar)
  = Some (set_state r QUOTE_IN_QUOTED_FIELD).
Proof. intros H. unfold parse_process_char. now rewrite H. Qed.

Lemma quote_quote r rest :
  state r = QUOTE_IN_QUOTED_FIELD ->
  fits limit (field r ++ String quotechar rest) = true ->
  parse_process_char limit r (Some quotechar)
  = Some (set_state (with_char r quotechar) IN_QUOTED_FIELD).
Proof.
  intros H Hfit. unfold parse_process_char. rewrite H. cbn.
  now rewrite (fits_room _ _ _ Hfit).
Qed.

(** The doubled text of a field, read inside the quotes, rebuilds the
    field, across any line endings it contains. *)
Lemma read_quoted_body body :
  forall r0 line r tail,
    at_line limit r0 line r -> state r = IN_QUOTED_FIELD ->
    fits limit (field r ++ body) = true ->
    exists r0' line' r',
      at_line limit r0' line' r'
      /\ run limit r0 line (double_quotes body ++ tail) = run limit r0' line' tail
      /\ state r' = IN_QUOTED_FIELD
      /\ field r' = field r ++ body
      /\ fields r' = fields r.
Proof.
  induction body as [| c body IH]; intros r0 line r tail Hat Hst Hfit.
  - exists r0, line, r. cbn. rewrite append_nil_r. auto.
  - pose proof (fits_with_char _ _ _ Hfit) as Hfit'.
    cbn [double_quotes]. destruct (Ascii.eqb_spec c quotechar) as [-> | Hq].
    + (* a quote, written twice *)
      cbn [append]. rewrite !run_plain by reflexivity.
      pose proof (at_line_snoc _ _ _ _ _ Hat (in_quoted_quote r Hst)) as Hat1.
      pose proof (at_line_snoc _ _ _ _ _ Hat1
                    (quote_quote (set_state r QUOTE_IN_QUOTED_FIELD) body
                       eq_refl Hfit)) as Hat2.
      destruct (IH _ _ _ tail Hat2 eq_refl Hfit')
        as (r0' & line' & r' & H1 & H2 & H3 & H4 & H5).
      exists r0', line', r'. repeat split; try assumption.
      rewrite H4. cbn. now rewrite append_assoc.
    + apply Ascii.eqb_neq in Hq.
      pose proof (in_quoted_char r c body Hst Hq Hfit) as Hstep.
      pose proof (at_line_snoc _ _ _ _ _ Hat Hstep) as Hat1.
      assert (Hfield : forall r',
                 field r' = field (with_char r c) ++ body ->
                 field r' = field r ++ String c body).
      { intros r' ->. cbn. now rewrite append_assoc. }
      cbn [append].
      destruct (Ascii.eqb_spec c LF) as [-> | HLF].
      { (* a line feed ends the line, the field goes on *)
        rewrite run_LF, (endline_in_quoted _ _ _ _ Hat1 Hst).
        destruct (IH (with_char r LF) "" (with_char r LF) tail
                    (at_line_nil _) Hst Hfit')
          as (r0' & line' & r' & H1 & H2 & H3 & H4 & H5).
        exists r0', line', r'. repeat split; auto. }
      destruct (Ascii.eqb_spec c CR) as [-> | HCR].
      { destruct (starts_with_LF (double_quotes body ++ tail)) eqn:Hnext.
        - (* the line feed that follows belongs to the same ending *)
          rewrite (run_CR_LF _ _ _ Hnext).
          destruct (IH _ _ (with_char r CR) tail Hat1 Hst Hfit')
            as (r0' & line' & r' & H1 & H2 & H3 & H4 & H5).
          exists r0', line', r'. repeat split; auto.
        - rewrite (run_CR _ _ _ Hnext), (endline_in_quoted _ _ _ _ Hat1 Hst).
          destruct (IH (with_char r CR) "" (with_char r CR) tail
                      (at_line_nil _) Hst Hfit')
            as (r0' & line' & r' & H1 & H2 & H3 & H4 & H5).
          exists r0', line', r'. repeat split; auto. }
      apply Ascii.eqb_neq in HLF, HCR.
      rewrite (run_plain _ _ _ _ HLF HCR).
      destruct (IH _ _ (with_char r c) tail Hat1 Hst Hfit')
        as (r0' & line' & r' & H1 & H2 & H3 & H4 & H5).
      exists r0', line', r'. repeat split; auto.
Qed.


(** *** A field without quotes *)

Lemma special_false c :
  special c = false ->
  Ascii.eqb c delimiter = false /\ Ascii.eqb c quotechar = false
  /\ Ascii.eqb c LF = false /\ Ascii.eqb c CR = false.
Proof.
  unfold special, lineterminator. cbn [contains].
  destruct (Ascii.eqb c delimiter), (Ascii.eqb c quotechar),
    (Ascii.eqb c CR), (Ascii.eqb c LF); cbn; intros H;
    try discriminate; auto.
Qed.

(** What the automaton does with a character that is not special, at
    the start of a field and inside one. *)
Lemma begin_plain_step r c :
  field_may_begin (state r) = true -> special c = false ->
  parse_process_char limit r (Some c)
  = then_state (parse_add_char limit (set_state r START_FIELD) c) IN_FIELD.
Proof.
  intros Hst (Hd & Hq & HLF & HCR)%special_false.
  unfold parse_process_char, start_field, is_newline.
  destruct r as [st fld flds]. cbn [state] in *.
  destruct st; try discriminate; cbn; now rewrite HLF, HCR, Hq, Hd.
Qed.

Lemma in_field_plain_step r c :
  state r = IN_FIELD -> special c = false ->
  parse_process_char limit r (Some c) = parse_add_char limit r c.
Proof.
  intros Hst (Hd & Hq & HLF & HCR)%special_false.
  unfold parse_process_char, is_newline. now rewrite Hst, HLF, HCR, Hd.
Qed.

Lemma begin_plain r c rest :
  field_may_begin (state r) = true -> special c = false ->
  fits limit (field r ++ String c rest) = true ->
  parse_process_char limit r (Some c) = Some (set_state (with_char r c) IN_FIELD).
Proof.
  intros Hst Hc Hfit. rewrite (begin_plain_step _ _ Hst Hc).
  now rewrite (fits_room (set_state r START_FIELD) c rest Hfit).
Qed.

Lemma in_field_plain r c rest :
  state r = IN_FIELD -> special c = false ->
  fits limit (field r ++ String c rest) = true ->
  parse_process_char limit r (Some c) = Some (with_char r c).
Proof.
  intros Hst Hc Hfit. rewrite (in_field_plain_step _ _ Hst Hc).
  exact (fits_room _ _ _ Hfit).
Qed.

Lemma read_in_field f :
  forall r0 line r tail,
    at_line limit r0 line r -> state r = IN_FIELD -> needs_quotes f = false ->
    fits limit (field r ++ f) = true ->
    exists r',
      at_line limit r0 (line ++ f) r'
      /\ run limit r0 line (f ++ tail) = run limit r0 (line ++ f) tail
      /\ state r' = IN_FIELD
      /\ field r' = field r ++ f
      /\ fields r' = fields r.
Proof.
  induction f as [| c f IH]; intros r0 line r tail Hat Hst Hn Hfit.
  - exists r. rewrite !append_nil_r. auto.
  - cbn in Hn. apply orb_false_elim in Hn as [Hc Hn].
    pose proof (at_line_snoc _ _ _ _ _ Hat (in_field_plain r c f Hst Hc Hfit))
      as Hat1.
    destruct (special_false c Hc) as (_ & _ & HLF & HCR).
    destruct (IH _ _ (with_char r c) tail Hat1 Hst Hn (fits_with_char _ _ _ Hfit))
      as (r' & H1 & H2 & H3 & H4 & H5).
    exists r'. cbn [append]. rewrite (run_plain _ _ _ _ HLF HCR).
    rewrite append_assoc in H1, H2. cbn in H1, H2, H4.
    rewrite append_assoc in H4. auto.
Qed.

(** *** A whole field *)

Lemma begin_quote r :
  field_may_begin (state r) = true ->
  parse_process_char limit r (Some quotechar) = Some (set_state r IN_QUOTED_FIELD).
Proof.
  intros Hst. unfold parse_process_char.
  destruct (state r); try discriminate; reflexivity.
Qed.

Lemma read_field f :
  forall r0 line r tail,
    at_line limit r0 line r -> field_may_begin (state r) = true -> field r = "" ->
    fits limit f = true ->
    exists r0' line' r',
      at_line limit r0' line' r'
      /\ run limit r0 line (write_field f ++ tail) = run limit r0' line' tail
      /\ after_field (state r) (state r')
      /\ field r' = f
      /\ fields r' = fields r.
Proof.
  intros r0 line r tail Hat Hst Hfield Hfit. unfold write_field.
  assert (Hfit' : fits limit (field r ++ f) = true) by now rewrite Hfield.
  destruct (needs_quotes f) eqn:Hn.
  - (* quoted *)
    cbn [append]. rewrite run_plain by reflexivity.
    pose proof (at_line_snoc _ _ _ _ _ Hat (begin_quote r Hst)) as Hat1.
    rewrite append_assoc.
    destruct (read_quoted_body f _ _ (set_state r IN_QUOTED_FIELD)
                (String quotechar "" ++ tail) Hat1 eq_refl Hfit')
      as (r0' & line' & r' & H1 & H2 & H3 & H4 & H5).
    rewrite H2. cbn [append]. rewrite run_plain by reflexivity.
    pose proof (at_line_snoc _ _ _ _ _ H1 (in_quoted_quote r' H3)) as Hat2.
    exists r0', (line' ++ String quotechar ""), (set_state r' QUOTE_IN_QUOTED_FIELD).
    repeat split; auto.
    + right; left; reflexivity.
    + cbn. rewrite H4. cbn. now rewrite Hfield.
  - destruct f as [| c f].
    + exists r0, line, r. repeat split; auto. right; right; reflexivity.
    + cbn in Hn. apply orb_false_elim in Hn as [Hc Hn].
      pose proof (at_line_snoc _ _ _ _ _ Hat (begin_plain r c f Hst Hc Hfit'))
        as Hat1.
      destruct (special_false c Hc) as (_ & _ & HLF & HCR).
      cbn [append]. rewrite (run_plain _ _ _ _ HLF HCR).
      destruct (read_in_field f _ _ (set_state (with_char r c) IN_FIELD)
                  tail Hat1 eq_refl Hn (fits_with_char _ _ _ Hfit'))
        as (r' & H1 & H2 & H3 & H4 & H5).
      exists r0, ((line ++ String c "") ++ f), r'.
      repeat split; auto.
      * left; assumption.
      * rewrite H4. cbn. now rewrite Hfield.
Qed.


(** *** Delimiters and the end of a record *)

Lemma delimiter_step before r :
  field_may_begin before = true -> after_field before (state r) ->
  parse_process_char limit r (Some delimiter)
  = Some (mk_reader START_FIELD "" (fields r ++ [field r])).
Proof.
  destruct r as [st fld flds]. cbn [state field fields].
  intros Hb [-> | [-> | ->]]; [reflexivity | reflexivity |].
  destruct before; try discriminate; reflexivity.
Qed.

Lemma read_delimiter before r0 line r tail :
  at_line limit r0 line r ->
  field_may_begin before = true -> after_field before (state r) ->
  let r' := mk_reader START_FIELD "" (fields r ++ [field r]) in
  at_line limit r0 (line ++ String delimiter "") r'
  /\ run limit r0 line (String delimiter tail)
     = run limit r0 (line ++ String delimiter "") tail.
Proof.
  intros Hat Hb Ha. split.
  - exact (at_line_snoc _ _ _ _ _ Hat (delimiter_step before r Hb Ha)).
  - now apply run_plain.
Qed.

Lemma read_record_end r0 line r tail :
  at_line limit r0 line r -> after_field START_FIELD (state r) ->
  run limit r0 line (lineterminator ++ tail)
  = option_map (cons (fields r ++ [field r])%list) (run limit parse_reset "" tail).
Proof.
  intros Hat Ha. unfold lineterminator. cbn [append].
  rewrite run_CR_LF by reflexivity. rewrite run_LF.
  unfold endline, process_line. rewrite !process_chars_app.
  unfold at_line in Hat. rewrite Hat. cbn [process_chars].
  assert (Hcr : parse_process_char limit r (Some CR)
                = Some (mk_reader EAT_CRNL "" (fields r ++ [field r]))).
  { clear Hat. destruct r as [st fld flds]. cbn [state field fields] in *.
    destruct Ha as [-> | [-> | ->]]; reflexivity. }
  rewrite Hcr. reflexivity.
Qed.

(** *** Records and files *)

Lemma writerow_three a b c :
  writerow [a; b; c]
  = write_field a ++ String delimiter
      (write_field b ++ String delimiter (write_field c ++ lineterminator)).
Proof.
  unfold writerow. cbn [map join].
  destruct (write_field a) as [| x wa]; cbn [append];
    repeat (rewrite ?append_assoc; cbn [append]); reflexivity.
Qed.

Lemma read_row a b c tail :
  fits limit a = true -> fits limit b = true -> fits limit c = true ->
  run limit parse_reset "" (writerow [a; b; c] ++ tail)
  = option_map (cons [a; b; c]) (run limit parse_reset "" tail).
Proof.
  intros Fa Fb Fc.
  rewrite writerow_three, append_assoc.
  destruct (read_field a parse_reset "" parse_reset
              (String delimiter
                 (write_field b ++ String delimiter (write_field c ++ lineterminator))
               ++ tail)
              (at_line_nil _) eq_refl eq_refl Fa)
    as (r0a & la & ra & Hat_a & Hrun_a & Hst_a & Hf_a & Hfs_a).
  rewrite Hrun_a. cbn [append].
  destruct (read_delimiter START_RECORD r0a la ra
              ((write_field b ++ String delimiter (write_field c ++ lineterminator))
               ++ tail) Hat_a eq_refl Hst_a) as [Hat1 Hrun1].
  rewrite Hrun1, append_assoc.
  destruct (read_field b _ _ _
              (String delimiter (write_field c ++ lineterminator) ++ tail)
              Hat1 eq_refl eq_refl Fb)
    as (r0b & lb & rb & Hat_b & Hrun_b & Hst_b & Hf_b & Hfs_b).
  rewrite Hrun_b. cbn [append].
  destruct (read_delimiter START_FIELD r0b lb rb
              ((write_field c ++ lineterminator) ++ tail) Hat_b eq_refl Hst_b)
    as [Hat2 Hrun2].
  rewrite Hrun2, append_assoc.
  destruct (read_field c _ _ _ (lineterminator ++ tail) Hat2 eq_refl eq_refl Fc)
    as (r0c & lc & rc & Hat_c & Hrun_c & Hst_c & Hf_c & Hfs_c).
  rewrite Hrun_c, (read_record_end _ _ _ _ Hat_c Hst_c).
  rewrite Hfs_c, Hf_c. cbn [fields field]. rewrite Hfs_b, Hf_b.
  cbn [fields field]. rewrite Hfs_a, Hf_a. reflexivity.
Qed.

Lemma row_fits_cells r :
  row_fits limit r = true ->
  fits limit (Test r) = true /\ fits limit (Result r) = true
  /\ fits limit (Status r) = true.
Proof.
  unfold row_fits, row_fields. cbn [forallb]. rewrite andb_true_r.
  intros [H1 [H2 H3]%andb_prop]%andb_prop. auto.
Qed.

Lemma read_rows rows :
  forallb (row_fits limit) rows = true ->
  run limit parse_reset "" (writerows rows) = Some (map row_fields rows).
Proof.
  induction rows as [| r rows IH]; [reflexivity |].
  cbn [forallb]. intros [Hr Hrows]%andb_prop.
  destruct (row_fits_cells r Hr) as (H1 & H2 & H3).
  cbn [writerows map]. unfold row_fields at 1.
  rewrite (read_row _ _ _ _ H1 H2 H3), (IH Hrows). reflexivity.
Qed.

Lemma header_fits : (6 <= limit)%N -> row_fits limit (mk_row "Test" "Result" "Status") = true.
Proof.
  intros H. unfold row_fits, fits. cbn.
  repeat (apply andb_true_intro; split); try reflexivity; apply N.leb_le; lia.
Qed.

(** Every row written comes back, field by field, after the header,
    when no cell is longer than the limit. *)
Lemma reader_rows_file_text rows :
  (6 <= limit)%N -> forallb (row_fits limit) rows = true ->
  reader_rows limit (file_text rows) = Some (fieldnames :: map row_fields rows).
Proof.
  intros Hl Hrows.
  change (reader_rows limit (file_text rows))
    with (run limit parse_reset ""
            (writerow ["Test"; "Result"; "Status"] ++ writerows rows)).
  destruct (row_fits_cells _ (header_fits Hl)) as (H1 & H2 & H3).
  rewrite (read_row _ _ _ _ H1 H2 H3), (read_rows _ Hrows). reflexivity.
Qed.


(** *** A field beyond the limit *)








End Reading.

(** *** Long texts *)

Lemma widest_fits rows limit :
  (widest rows <= limit)%N -> forallb (row_fits limit) rows = true.
Proof.
  induction rows as [| r rows IH]; [reflexivity |].
  cbn [widest forallb]. intros H.
  apply andb_true_intro. split; [| apply IH; lia].
  unfold row_fits, row_fields, fits. cbn [forallb].
  repeat (apply andb_true_intro; split); try reflexivity; apply N.leb_le; lia.
Qed.






End CsvFacts.

(* ================================================================= *)
(** ** The report file of a run *)

Lemma test_status_row_dict r :
  test_status (row_dict r) = (Some (Test r), Some (Status r)).
Proof. reflexivity. Qed.







(* ================================================================= *)
(** ** Sample runs *)

(** The backwards range of the specification, 50..10, is rejected. *)
Lemma rejected_run_50_10 :
  Spec.rejected backwards_range = true
  /\ exists t e,
       main sample_transport "20240101_120000" sample_join "menu" no_faults
         9 backwards_range
       = (t, Raise e)
       /\ forallb console_event t = true
       /\ (forall t' results,
              dispatch sample_transport no_faults backwards_range
              <> (t', Ok results))
       /\ (e = mk_exn Exit "" \/ Spec.recognized backwards_range = false).
Proof.
  split; [reflexivity |].
  apply (rejected_run_touches_nothing sample_transport "20240101_120000"
           sample_join "menu" no_faults 9 backwards_range).
  reflexivity.
Defined.

(** A full run in which the first probe fails: both entries are there. *)
Lemma full_mode_report_sample :
  exists o1 o2 called,
    test_list_charges sample_transport "sk_test_123"
    = ([Http (charges_request "sk_test_123")], Ok o1)
    /\ test_publishable_key sample_transport "pk_test_123"
       = ([Http (tokens_request "pk_test_123")], Ok o2)
    /\ called = [Console "Testing full validation (secret key and publishable key)...";
                 Http (charges_request "sk_test_123");
                 Http (tokens_request "pk_test_123")]
    /\ dispatch sample_transport no_faults full_options
       = (called, Ok [("list_charges", o1); ("test_publishable_key", o2)])
    /\ map fst [("list_charges", o1); ("test_publishable_key", o2)]
       = ["list_charges"; "test_publishable_key"]
    /\ outcome_shape o1 /\ outcome_shape o2.
Proof.
  apply (full_mode_report sample_transport no_faults full_options
           "sk_test_123" "pk_test_123");
    try reflexivity; discriminate.
Defined.


(* ================================================================= *)
(** * Whole runs *)

Section Runs.

Variable transport : request -> reply.
Variable now : string.
Variable path_join : string -> string -> string.
Variable menu : string.
Variable env : faults.

Ltac walk_trace :=
  repeat first
    [ rewrite test_list_charges_eq
    | rewrite test_publishable_key_eq
    | rewrite test_custom_endpoint_eq
    | rewrite csv_data_pure
    | rewrite table_rows_pure
    | apply Forall_nil
    | apply Forall_cons; [cbn; auto |]
    | apply Forall_trace_bind; [| intros ? _]
    | progress unfold brute_force_customers, time_sleep, clock_error,
        int_text, console_print, write_file, print_table
    | match goal with
      | |- context [match ?x with Some _ => _ | None => _ end] => destruct x
      | |- context [if ?b then _ else _] => destruct b
      end
    | progress cbn [trace fst emit reject raise ret bind] ].

Lemma scan_result_eq sk delay a b :
  time_sleep env delay = ([Sleep delay], Ok tt) ->
  int_text env format_010 a = ([], Ok (format_010 a)) ->
  int_text env format_010 b = ([], Ok (format_010 b)) ->
  brute_force_customers env sk delay a b
  = ([Sleep delay],
     Ok (PDict [("found_customers", PList (map identifier (scan_ids a b)))])).
Proof. exact (scan_returns env sk delay a b). Qed.


(** The ways the dispatcher ends: it leaves at a guard; the console
    refuses the text of an unknown mode; an integer of the scan is too
    long to be printed; the pause of the scan is refused; the console
    refuses the text of the endpoint; or it returns a report. *)
Lemma dispatch_cases o :
  (accepted o = false
   /\ (Spec.recognized o = false -> markup_error env (unknown_mode_message o) = None)
   /\ exists message,
        dispatch transport env o = ([Console message], Raise (mk_exn Exit "")))
  \/ (accepted o = false /\ Spec.recognized o = false
      /\ exists msg,
           markup_error env (unknown_mode_message o) = Some msg
           /\ dispatch transport env o = ([], Raise (mk_exn MarkupError msg)))
  \/ (accepted o = true /\ mode_is o "brute-force" = true
      /\ short_ints o = false
      /\ exists msg,
           dispatch transport env o = ([], Raise (mk_exn ValueError msg)))
  \/ (accepted o = true /\ mode_is o "brute-force" = true
      /\ exists message e,
           time_sleep env (delay o) = ([], Raise e)
           /\ (e = sleep_refused \/ exists f, e = other f)
           /\ dispatch transport env o = ([Console message], Raise e))
  \/ (accepted o = true /\ mode_is o "custom" = true
      /\ exists msg,
           markup_error env (custom_message (value (custom_endpoint o))) = Some msg
           /\ dispatch transport env o = ([], Raise (mk_exn MarkupError msg)))
  \/ (accepted o = true
      /\ (mode_is o "brute-force" = true ->
          time_sleep env (delay o) = ([Sleep (delay o)], Ok tt))
      /\ (mode_is o "custom" = true ->
          markup_error env (custom_message (value (custom_endpoint o))) = None)
      /\ exists t results,
           dispatch transport env o = (t, Ok results)
           /\ forallb before_report t = true
           /\ nonempty results = true
           /\ Forall report_entry (map snd results)
           /\ In (map fst results) report_keys
           /\ (List.length (filter is_http t) <= 2)%nat).
Proof.
  destruct o as [m sk pk st sp dl ce folder].
  unfold accepted, range_ok, dispatch, mode_is, Spec.recognized, Spec.modes,
    unknown_mode_message, custom_message, short_ints.
  cbn [mode secretkey pubkey start stop delay custom_endpoint output_folder
       existsb].
  destruct m as [m |].
  2:{ destruct (console_print_cases env
                  ("[bold red]Error: Unknown mode '" ++ str_opt None
                     ++ "'. Please choose a valid mode.[/bold red]"))
        as [[Hm Hc] | (msg & Hm & Hc)]; rewrite Hc.
      - left. split; [reflexivity |]. split; [intros _; exact Hm |].
        eexists; reflexivity.
      - right; left. split; [reflexivity |]. split; [reflexivity |].
        exists msg. split; [exact Hm | reflexivity]. }
  destruct (String.eqb m "default") eqn:E1.
  { apply String.eqb_eq in E1. subst m.
    cbn [String.eqb Ascii.eqb Bool.eqb orb].
    destruct (not_set sk) eqn:Hsk; cbn [negb].
    - left. split; [reflexivity |]. split; [discriminate | eexists; reflexivity].
    - do 5 right. split; [reflexivity |]. split; [discriminate |].
      split; [discriminate |].
      destruct (test_list_charges_shape transport (value sk)) as (o1 & E & S).
      rewrite E. do 2 eexists. split; [reflexivity |].
      split; [reflexivity |]. split; [reflexivity |].
      split; [repeat constructor; exact S |].
      split; [cbn; tauto | cbn; lia]. }
  destruct (String.eqb m "brute-force") eqn:E2.
  { apply String.eqb_eq in E2. subst m.
    cbn [String.eqb Ascii.eqb Bool.eqb orb].
    destruct (not_set sk) eqn:Hsk; cbn [negb andb].
    - left. split; [reflexivity |]. split; [discriminate |].
      destruct st, sp; eexists; reflexivity.
    - destruct st as [a |];
        [| left; split; [reflexivity |]; split;
           [discriminate | eexists; reflexivity]].
      destruct sp as [b |];
        [| left; split; [reflexivity |]; split;
           [discriminate | eexists; reflexivity]].
      destruct (a >? b)%Z; cbn [negb].
      + left. split; [reflexivity |]. split; [discriminate | eexists; reflexivity].
      + destruct (int_text_cases env format_010 a) as [Ea | (m & La & _ & Ea)];
          rewrite Ea; cbn [bind];
          [| do 2 right; left; split; [reflexivity |]; split; [reflexivity |];
             apply Nat.leb_gt in La; rewrite La;
             split; [reflexivity | eexists; reflexivity]].
        destruct (int_text_cases env format_010 b) as [Eb | (m & Lb & _ & Eb)];
          rewrite Eb; cbn [bind];
          [| do 2 right; left; split; [reflexivity |]; split; [reflexivity |];
             apply Nat.leb_gt in Lb; rewrite Lb, andb_false_r;
             split; [reflexivity | eexists; reflexivity]].
        destruct (int_text_cases env str_of_int dl) as [Ed | (m & Ld & _ & Ed)];
          rewrite Ed; cbn [bind];
          [| do 2 right; left; split; [reflexivity |]; split; [reflexivity |];
             apply Nat.leb_gt in Ld; rewrite Ld, andb_false_r;
             split; [reflexivity | eexists; reflexivity]].
        destruct (time_sleep_cases env dl) as [Hs | (e & Hs & He)].
        * rewrite (scan_result_eq _ _ _ _ Hs Ea Eb).
          do 5 right. split; [reflexivity |]. split; [intros _; exact Hs |].
          split; [discriminate |].
          do 2 eexists. split; [reflexivity |].
          split; [reflexivity |]. split; [reflexivity |].
          split; [| split; [cbn; tauto | cbn; lia]].
          constructor; [| constructor].
          apply (entry_scan (scan_ids a b)). discriminate.
        * rewrite (scan_refused _ _ _ _ _ _ Hs).
          do 3 right; left. split; [reflexivity |]. split; [reflexivity |].
          eexists; exists e. split; [exact Hs |]. split; [exact He | reflexivity]. }
  destruct (String.eqb m "pubkey") eqn:E3.
  { apply String.eqb_eq in E3. subst m.
    cbn [String.eqb Ascii.eqb Bool.eqb orb].
    destruct (not_set pk) eqn:Hpk; cbn [negb].
    - left. split; [reflexivity |]. split; [discriminate | eexists; reflexivity].
    - do 5 right. split; [reflexivity |]. split; [discriminate |].
      split; [discriminate |].
      destruct (test_publishable_key_shape transport (value pk)) as (o1 & E & S).
      rewrite E. do 2 eexists. split; [reflexivity |].
      split; [reflexivity |]. split; [reflexivity |].
      split; [repeat constructor; exact S |].
      split; [cbn; tauto | cbn; lia]. }
  destruct (String.eqb m "full") eqn:E4.
  { apply String.eqb_eq in E4. subst m.
    cbn [String.eqb Ascii.eqb Bool.eqb orb].
    destruct (not_set sk || not_set pk) eqn:Hk; cbn [negb].
    - left. split; [reflexivity |]. split; [discriminate | eexists; reflexivity].
    - do 5 right. split; [reflexivity |]. split; [discriminate |].
      split; [discriminate |].
      destruct (test_list_charges_shape transport (value sk)) as (o1 & F1 & S1).
      destruct (test_publishable_key_shape transport (value pk)) as (o2 & F2 & S2).
      rewrite F1, F2. do 2 eexists. split; [reflexivity |].
      split; [reflexivity |]. split; [reflexivity |].
      split; [repeat constructor; assumption |].
      split; [cbn; tauto | cbn; lia]. }
  destruct (String.eqb m "restricted") eqn:E5.
  { apply String.eqb_eq in E5. subst m.
    cbn [String.eqb Ascii.eqb Bool.eqb orb].
    destruct (not_set sk) eqn:Hsk; cbn [negb].
    - left. split; [reflexivity |]. split; [discriminate | eexists; reflexivity].
    - do 5 right. split; [reflexivity |]. split; [discriminate |].
      split; [discriminate |].
      destruct (test_list_charges_shape transport (value sk)) as (o1 & E & S).
      rewrite E. do 2 eexists. split; [reflexivity |].
      split; [reflexivity |]. split; [reflexivity |].
      split; [repeat constructor; exact S |].
      split; [cbn; tauto | cbn; lia]. }
  destruct (String.eqb m "custom") eqn:E6.
  { apply String.eqb_eq in E6. subst m.
    cbn [String.eqb Ascii.eqb Bool.eqb orb].
    destruct (not_set sk || not_set ce) eqn:Hk; cbn [negb].
    - left. split; [reflexivity |]. split; [discriminate | eexists; reflexivity].
    - destruct (console_print_cases env
                  ("Testing custom endpoint " ++ value ce ++ "..."))
        as [[Hm Hc] | (msg & Hm & Hc)]; rewrite Hc.
      + do 5 right. split; [reflexivity |]. split; [discriminate |].
        split; [intros _; exact Hm |].
        destruct (test_custom_endpoint_shape transport (value sk) (value ce))
          as (o1 & E & S).
        rewrite E. do 2 eexists. split; [reflexivity |].
        split; [reflexivity |]. split; [reflexivity |].
        split; [repeat constructor; exact S |].
        split; [cbn; tauto | cbn; lia].
      + do 4 right; left. split; [reflexivity |]. split; [reflexivity |].
        exists msg. split; [exact Hm | reflexivity]. }
  cbn [orb].
  destruct (console_print_cases env
              ("[bold red]Error: Unknown mode '" ++ str_opt (Some m)
                 ++ "'. Please choose a valid mode.[/bold red]"))
    as [[Hm Hc] | (msg & Hm & Hc)]; rewrite Hc.
  - left. split; [reflexivity |]. split; [intros _; exact Hm |].
    eexists; reflexivity.
  - right; left. split; [reflexivity |]. split; [reflexivity |].
    exists msg. split; [exact Hm | reflexivity].
Qed.


(** Each entry the dispatcher builds gives rows, as many in the table as
    in the file, and at least one. *)
Lemma report_entry_rows test v :
  report_entry v ->
  exists rs ds,
    save_entry test v = ([], Ok rs)
    /\ display_entry test v = ([], Ok ds)
    /\ rs <> [] /\ List.length ds = List.length rs.
Proof.
  intros [o S | ids Hids].
  - destruct (save_entry_outcome test o S) as (r & F & _).
    destruct (display_entry_outcome test o S) as (d & G & _).
    exists [r], [d]. repeat split; try assumption. discriminate.
  - exists (map identifier_row ids), (map identifier_row ids).
    unfold save_entry, display_entry. cbn [dict_mem dict_find dict_get String.eqb
      Ascii.eqb Bool.eqb py_iter bind ret app].
    rewrite mapM_customer_rows. repeat split.
    destruct ids; [contradiction | discriminate].
Qed.

Lemma report_rows results :
  Forall report_entry (map snd results) ->
  exists rows shown,
    csv_data results = ([], Ok rows)
    /\ table_rows results = ([], Ok shown)
    /\ (nonempty results = true -> rows <> [])
    /\ List.length shown = List.length rows.
Proof.
  unfold csv_data, table_rows.
  induction results as [| [test v] rest IH]; intros H.
  - exists [], []. repeat split. discriminate.
  - cbn [map snd] in H. inversion H as [| ? ? Hv Hrest]; subst.
    destruct (report_entry_rows test v Hv) as (rs & ds & F & G & Hne & Hlen).
    destruct (IH Hrest) as (rows & shown & F' & G' & _ & Hlen').
    exists (rs ++ rows)%list, (ds ++ shown)%list.
    cbn [for_items]. rewrite F, G. cbn [bind]. rewrite F', G'. cbn [app].
    repeat split.
    + intros _. destruct rs; [contradiction | discriminate].
    + rewrite !List.length_app. lia.
Qed.


Lemma report_effects_result path folder rows shown :
  result_of (report_effects env path folder rows shown) = Ok tt
  \/ (exists f, result_of (report_effects env path folder rows shown)
                = Raise (other f))
  \/ (exists msg, result_of (report_effects env path folder rows shown)
                  = Raise (mk_exn MarkupError msg)).
Proof.
  unfold report_effects, save_effects, print_table.
  destruct (write_error env _ _) as [f |]; [right; left; now exists f |].
  destruct (markup_error env _) as [msg |]; [right; right; now exists msg |].
  destruct (table_error env _) as [msg |]; [right; right; now exists msg |].
  now left.
Qed.


(** X2: in brute-force mode a negative delay passes the guards; when
    the integers of the run are short enough to be printed and the delay
    is within the range of the clock, the run announces the scan and
    then ends with the [ValueError] of the pause: no folder, no file, no
    table. *)
Theorem negative_delay_aborts argc o :
  argc <> 1%nat ->
  accepted o = true ->
  mode_is o "brute-force" = true ->
  short_ints o = true ->
  (- sleep_range <= delay o < 0)%Z ->
  exists message,
    main transport now path_join menu env argc o
    = ([Console message], Raise sleep_refused).
Proof.
  intros Hargc Hacc Hbf Hshort Hneg.
  pose proof (time_sleep_negative env _ Hneg) as Hs.
  destruct (dispatch_cases o)
    as [[H _]
       | [[H _]
         | [(_ & _ & H & _)
           | [(_ & _ & msg & e & He & _ & Hd)
             | [(_ & Hc & _) | H]]]]].
  - congruence.
  - congruence.
  - congruence.
  - rewrite Hs in He. injection He as <-.
    exists msg. unfold main. apply Nat.eqb_neq in Hargc. rewrite Hargc, Hd.
    reflexivity.
  - unfold mode_is in Hbf, Hc. destruct (mode o) as [m |]; [| discriminate].
    apply String.eqb_eq in Hbf, Hc. congruence.
  - destruct H as (_ & H & _). rewrite (H Hbf) in Hs. discriminate.
Qed.

(** X3: a run ends by leaving ([typer.Exit]) exactly when it had no
    arguments, or fails a guard of its mode and, if the mode is not one
    of the six, the console takes the text of the mode; a run without
    arguments or that fails a guard never returns and does nothing but
    console output. *)
Theorem exit_iff argc o :
  (result_of (main transport now path_join menu env argc o) = Raise (mk_exn Exit "")
   <-> argc = 1%nat
       \/ (accepted o = false
           /\ (Spec.recognized o = false ->
               markup_error env (unknown_mode_message o) = None)))
  /\ (argc = 1%nat \/ accepted o = false ->
      (exists e,
          result_of (main transport now path_join menu env argc o) = Raise e)
      /\ forallb console_event (trace (main transport now path_join menu env argc o))
         = true).
Proof.
  unfold main. destruct (Nat.eqb_spec argc 1) as [-> | Hargc].
  { split; [split; [now left | reflexivity] |].
    intros _. split; [eexists |]; reflexivity. }
  destruct (dispatch_cases o)
    as [(Hacc & Hm & msg & Hd)
       | [(Hacc & Hrec & msg & Hm & Hd)
         | [(Hacc & _ & _ & msg & Hd)
           | [(Hacc & _ & msg & e & _ & He & Hd)
             | [(Hacc & _ & msg & _ & Hd) | (Hacc & _ & _ & H)]]]]].
  - rewrite Hd. split; [split; [intros _; right; now split | reflexivity] |].
    intros _. split; [eexists |]; reflexivity.
  - rewrite Hd. cbn [bind result_of snd trace fst forallb console_event andb].
    split; [split; [discriminate |] |].
    + intros [? | [_ H]]; [contradiction |].
      rewrite (H Hrec) in Hm. discriminate.
    + intros _. split; [eexists |]; reflexivity.
  - rewrite Hd. cbn [bind result_of snd trace fst forallb console_event andb].
    split; [split; [discriminate |] |].
    + intros [? | [? _]]; congruence.
    + intros [? | ?]; congruence.
  - rewrite Hd. cbn [bind result_of snd trace fst forallb console_event andb].
    split; [split |].
    + destruct He as [-> | [f ->]]; discriminate.
    + intros [? | [? _]]; congruence.
    + intros [? | ?]; congruence.
  - rewrite Hd. cbn [bind result_of snd trace fst forallb console_event andb].
    split; [split; [discriminate |] |].
    + intros [? | [? _]]; congruence.
    + intros [? | ?]; congruence.
  - destruct H as (t & results & Hd & _ & Hne & Hentries & _).
    destruct (report_rows results Hentries) as (rows & shown & F & G & _).
    pose proof (main_eq transport now path_join menu env argc o _ _ _ _
                  Hargc Hd Hne F G) as Hmain.
    unfold main in Hmain. apply Nat.eqb_neq in Hargc. rewrite Hargc in Hmain.
    rewrite Hmain. unfold after. cbn [result_of snd].
    split; [split |].
    + intros Hexit.
      destruct (report_effects_result
                  (report_path now path_join (output_folder o))
                  (output_folder o) rows shown)
        as [E | [[f E] | [m E]]]; rewrite E in Hexit; discriminate.
    + intros [? | [? _]]; [| congruence].
      apply Nat.eqb_neq in Hargc. contradiction.
    + intros [? | ?]; [| congruence].
      apply Nat.eqb_neq in Hargc. contradiction.
Qed.

(** X4: the guards reject exactly what the specification's table rejects
    and, beyond it, a required credential or endpoint given as the empty
    text. *)
Theorem accepted_iff_table o :
  accepted o = negb (Spec.rejected o || required_empty o).
Proof.
  destruct o as [m sk pk st sp dl ce folder].
  unfold accepted, range_ok, Spec.rejected, Spec.required_unset,
    Spec.start_after_stop, Spec.recognized, Spec.modes, required_empty, mode_is.
  cbn [mode secretkey pubkey start stop delay custom_endpoint output_folder existsb].
  destruct m as [m |]; [| reflexivity].
  destruct (String.eqb m "default") eqn:E1;
    [apply String.eqb_eq in E1; subst m; destruct sk as [[| c s] |]; reflexivity |].
  destruct (String.eqb m "brute-force") eqn:E2;
    [apply String.eqb_eq in E2; subst m;
     destruct sk as [[| c s] |], st as [a |], sp as [b |]; cbn;
     try reflexivity; destruct (a >? b)%Z; reflexivity |].
  destruct (String.eqb m "pubkey") eqn:E3;
    [apply String.eqb_eq in E3; subst m; destruct pk as [[| c s] |]; reflexivity |].
  destruct (String.eqb m "full") eqn:E4;
    [apply String.eqb_eq in E4; subst m;
     destruct sk as [[| c s] |], pk as [[| c' s'] |]; reflexivity |].
  destruct (String.eqb m "restricted") eqn:E5;
    [apply String.eqb_eq in E5; subst m; destruct sk as [[| c s] |]; reflexivity |].
  destruct (String.eqb m "custom") eqn:E6;
    [apply String.eqb_eq in E6; subst m;
     destruct sk as [[| c s] |], ce as [[| c' s'] |]; reflexivity |].
  reflexivity.
Qed.


(** X5: however a run goes, the only requests it sends are those of its
    mode, built from its own options: the charge listing with the secret
    key (default, restricted, full), the token endpoint with the
    publishable key (pubkey, full), the caller's endpoint with the secret
    key (custom); brute-force mode and rejected runs send none. *)
Theorem requests_follow_mode argc o :
  Forall (allowed_event o) (trace (main transport now path_join menu env argc o)).
Proof.
  unfold main. destruct (argc =? 1)%nat.
  { repeat constructor. }
  apply Forall_trace_bind.
  - unfold allowed_event, mode_request, dispatch.
    repeat match goal with
           | |- context [if ?b then _ else _] => destruct b
           | |- context [match ?x with Some _ => _ | None => _ end] => destruct x
           end.
    all: walk_trace.
  - intros results _. unfold save_results_to_file, display_results.
    destruct (nonempty results); walk_trace.
Qed.

(** X6: the dispatcher ends in one of these ways only: with a report
    whose keys are those of one mode (never empty); by leaving; with the
    console's [MarkupError], for the text of a mode that is not one of
    the six or of the endpoint in custom mode; or, in brute-force mode,
    with a [ValueError] (an integer too long to be printed, a negative
    pause) or an exception of the clock.  No exception of a probe
    escapes. *)
Theorem dispatch_endings o :
  match result_of (dispatch transport env o) with
  | Ok results => In (map fst results) report_keys /\ nonempty results = true
  | Raise e =>
      e = mk_exn Exit ""
      \/ (exn_cls e = MarkupError
          /\ (Spec.recognized o = false \/ mode_is o "custom" = true))
      \/ (mode_is o "brute-force" = true
          /\ (exn_cls e = ValueError \/ exists f, e = other f))
  end.
Proof.
  destruct (dispatch_cases o)
    as [(_ & _ & msg & Hd)
       | [(_ & Hrec & msg & _ & Hd)
         | [(_ & Hbf & _ & msg & Hd)
           | [(_ & Hbf & msg & e & Hs & He & Hd)
             | [(_ & Hc & msg & _ & Hd) | (_ & _ & _ & H)]]]]].
  - rewrite Hd. now left.
  - rewrite Hd. right; left. split; [reflexivity | now left].
  - rewrite Hd. right; right. split; [exact Hbf | now left].
  - rewrite Hd. right; right. split; [exact Hbf |].
    destruct He as [-> | He]; [now left | now right].
  - rewrite Hd. right; left. split; [reflexivity | now right].
  - destruct H as (t & results & Hd & _ & Hne & _ & Hkeys & _).
    rewrite Hd. split; assumption.
Qed.

(** X7: restricted mode is default mode under another name: with the same
    options the two runs end the same way and have the same effects
    apart from console messages (the same request, file and table). *)
Theorem restricted_is_default argc o :
  let d := main transport now path_join menu env argc (with_mode "default" o) in
  let r := main transport now path_join menu env argc (with_mode "restricted" o) in
  result_of d = result_of r
  /\ filter silent (trace d) = filter silent (trace r).
Proof.
  cbv zeta. unfold main. destruct (argc =? 1)%nat; [split; reflexivity |].
  unfold dispatch, with_mode, mode_is.
  cbn [mode secretkey pubkey start stop delay custom_endpoint output_folder
       String.eqb Ascii.eqb Bool.eqb].
  destruct (not_set (secretkey o)); [split; reflexivity |].
  destruct (test_list_charges_shape transport (value (secretkey o)))
    as (o1 & E & S).
  rewrite E.
  destruct (report_rows [("list_charges", o1)]) as (rows & shown & F & G & _).
  { repeat constructor. exact S. }
  cbn [bind emit ret dict_set app nonempty].
  rewrite (save_results_to_file_eq now path_join env _ (output_folder o) _ F).
  rewrite (display_results_eq env _ _ G).
  destruct (save_effects env _ _ rows) as [t1 [[] | e]]; cbn [bind];
    [| split; reflexivity].
  destruct (print_table env shown) as [t2 r2]. split; reflexivity.
Qed.

(** X8: a default-mode or restricted-mode run with the secret key set
    sends one request, the charge listing, and its report has the single
    entry [list_charges], the outcome of that probe. *)
Theorem list_charges_modes_report o sk :
  mode o = Some "default" \/ mode o = Some "restricted" ->
  secretkey o = Some sk -> sk <> "" ->
  exists message o1,
    test_list_charges transport sk = ([Http (charges_request sk)], Ok o1)
    /\ dispatch transport env o
       = ([Console message; Http (charges_request sk)], Ok [("list_charges", o1)]).
Proof.
  intros Hmode Hsk Hne.
  destruct (test_list_charges_shape transport sk) as (o1 & E & _).
  apply String.eqb_neq in Hne.
  destruct Hmode as [Hmode | Hmode]; eexists; exists o1; (split; [exact E |]);
    unfold dispatch, mode_is; rewrite Hmode, Hsk;
    cbn [String.eqb Ascii.eqb Bool.eqb not_set value]; rewrite Hne, E;
    reflexivity.
Qed.

(** X9: a pubkey-mode run with the credential set sends one request, the
    token creation, and its report has the single entry
    [test_publishable_key], the outcome of that probe. *)
Theorem pubkey_mode_report o pk :
  mode o = Some "pubkey" -> pubkey o = Some pk -> pk <> "" ->
  exists o2,
    test_publishable_key transport pk = ([Http (tokens_request pk)], Ok o2)
    /\ dispatch transport env o
       = ([Console "Testing Publishable Key by creating a test token...";
           Http (tokens_request pk)],
          Ok [("test_publishable_key", o2)]).
Proof.
  intros Hmode Hpk Hne.
  destruct (test_publishable_key_shape transport pk) as (o2 & E & _).
  exists o2. split; [exact E |].
  unfold dispatch, mode_is. rewrite Hmode, Hpk.
  cbn [String.eqb Ascii.eqb Bool.eqb not_set value].
  apply String.eqb_neq in Hne. rewrite Hne, E. reflexivity.
Qed.

(** X10: a custom-mode run with the secret key and the endpoint set
    first prints an announcement that holds the endpoint.  If the
    console takes it, the run sends one GET to that endpoint with the
    secret key as bearer, and its report has the single entry
    [test_custom_endpoint]; if the console refuses it, the run ends with
    [MarkupError], no request sent. *)
Theorem custom_mode_report o sk url :
  mode o = Some "custom" ->
  secretkey o = Some sk -> sk <> "" ->
  custom_endpoint o = Some url -> url <> "" ->
  match markup_error env (custom_message url) with
  | None =>
      exists o3,
        test_custom_endpoint transport sk url
        = ([Http (mk_request "GET" url [("Authorization", "Bearer " ++ sk)] [])],
           Ok o3)
        /\ dispatch transport env o
           = ([Console (custom_message url);
               Http (mk_request "GET" url [("Authorization", "Bearer " ++ sk)] [])],
              Ok [("test_custom_endpoint", o3)])
  | Some msg => dispatch transport env o = ([], Raise (mk_exn MarkupError msg))
  end.
Proof.
  intros Hmode Hsk Hne Hurl Hne'.
  destruct (test_custom_endpoint_shape transport sk url) as (o3 & E & _).
  assert (Hd : dispatch transport env o
               = (console_print env (custom_message url) ;;;
                  custom_result <- test_custom_endpoint transport sk url ;;
                  ret [("test_custom_endpoint", custom_result)])).
  { unfold dispatch, mode_is. rewrite Hmode, Hsk, Hurl.
    cbn [String.eqb Ascii.eqb Bool.eqb not_set value orb].
    apply String.eqb_neq in Hne, Hne'. rewrite Hne, Hne'. reflexivity. }
  rewrite Hd. unfold console_print.
  destruct (markup_error env (custom_message url)) as [msg |]; [reflexivity |].
  exists o3. split; [exact E |]. rewrite E. reflexivity.
Qed.



(** X12: the two branches of [main] for an empty report are never taken:
    a run with arguments never prints either of their messages. *)
Theorem no_results_unreachable argc o :
  argc <> 1%nat ->
  Forall (fun e => no_results_message e = false)
    (trace (main transport now path_join menu env argc o)).
Proof.
  intros Hargc. unfold main. apply Nat.eqb_neq in Hargc. rewrite Hargc.
  apply Forall_trace_bind.
  - unfold dispatch.
    repeat match goal with
           | |- context [if ?b then _ else _] => destruct b
           | |- context [match ?x with Some _ => _ | None => _ end] => destruct x
           end.
    all: walk_trace.
  - intros results Hres.
    assert (Hne : nonempty results = true).
    { destruct (dispatch_cases o)
        as [(_ & _ & msg & Hd)
           | [(_ & _ & msg & _ & Hd)
             | [(_ & _ & _ & msg & Hd)
               | [(_ & _ & msg & e & _ & _ & Hd)
                 | [(_ & _ & msg & _ & Hd) | (_ & _ & _ & H)]]]]];
        try (rewrite Hd in Hres; discriminate).
      destruct H as (t & results' & Hd & _ & Hne & _).
      rewrite Hd in Hres. now injection Hres as <-. }
    rewrite Hne. unfold save_results_to_file, display_results. walk_trace.
Qed.

End Runs.

(* ================================================================= *)
(** * More on the probes *)

Section ProbesMore.

Variable transport : request -> reply.

(** X13: when the token endpoint answers with a status other than 200,
    [test_publishable_key] reports a failure without payload whose error
    is the [error] field of a JSON object body, the raw text when the
    object has no such field or the body is not JSON, the text of the
    attribute error when the body is JSON but not an object, and the
    message of the exception when the decoding fails with anything but
    a decode error. *)
Theorem publishable_error_message pubkey r :
  transport (tokens_request pubkey) = Response r ->
  status_code r <> 200%Z ->
  exists o,
    test_publishable_key transport pubkey = ([Http (tokens_request pubkey)], Ok o)
    /\ succeeded o = false
    /\ payload o = None
    /\ error o
       = Some (match json r with
               | Parsed (PDict d) =>
                   match dict_find "error" d with
                   | Some e => e
                   | None => PStr (text r)
                   end
               | Parsed v =>
                   PStr ("'" ++ type_name v ++ "' object has no attribute 'get'")
               | Malformed _ => PStr (text r)
               | Broken _ msg => PStr msg
               end).
Proof.
  intros Hr Hcode. eexists. split; [apply test_publishable_key_eq |].
  rewrite Hr. destruct (Z.eqb_spec (status_code r) 200); [contradiction |].
  destruct (json r) as [[] | |]; repeat split.
Qed.

Lemma shape_exclusive o :
  outcome_shape o ->
  (payload o = None <-> error o <> None)
  /\ (succeeded o = true -> payload o <> None /\ error o = None)
  /\ exists b, o = PDict (("status", PBool b) :: match payload o, error o with
                                                 | Some v, _ => [("raw_response", v)]
                                                 | None, Some e => [("error", e)]
                                                 | None, None => []
                                                 end).
Proof.
  intros [b v | v]; cbn.
  - split; [split; [discriminate | intros H; now contradiction H] |].
    split; [intros _; split; [discriminate | reflexivity] |]. now exists b.
  - split; [split; [discriminate | reflexivity] |].
    split; [discriminate |]. now exists false.
Qed.

(** X14: the outcome of every probe is a dictionary with a boolean
    [status] and exactly one more key: the payload or the error, never
    both and never neither; a successful one carries the payload. *)
Theorem outcome_payload_or_error secret_key pubkey endpoint :
  let well_formed (m : M pyval) :=
    exists t o,
      m = (t, Ok o)
      /\ (payload o = None <-> error o <> None)
      /\ (succeeded o = true -> payload o <> None /\ error o = None)
      /\ exists b,
           o = PDict (("status", PBool b)
                        :: match payload o, error o with
                           | Some v, _ => [("raw_response", v)]
                           | None, Some e => [("error", e)]
                           | None, None => []
                           end) in
  well_formed (test_list_charges transport secret_key)
  /\ well_formed (test_publishable_key transport pubkey)
  /\ well_formed (test_custom_endpoint transport secret_key endpoint).
Proof.
  cbv zeta. split; [| split].
  - destruct (test_list_charges_shape transport secret_key) as (o & E & S).
    exists [Http (charges_request secret_key)], o.
    split; [exact E | now apply shape_exclusive].
  - destruct (test_publishable_key_shape transport pubkey) as (o & E & S).
    exists [Http (tokens_request pubkey)], o.
    split; [exact E | now apply shape_exclusive].
  - destruct (test_custom_endpoint_shape transport secret_key endpoint) as (o & E & S).
    exists [Http (custom_request secret_key endpoint)], o.
    split; [exact E | now apply shape_exclusive].
Qed.


End ProbesMore.

(* ================================================================= *)
(** * More on the reporter *)



(** X17: the row of an identifier with an [id]: it is labelled
    [Found Customer], its status is [PASS] exactly when the id is truthy,
    and its cell shows the id followed by the email in brackets, by the
    text [No Email] when the key is missing, and by the text [None] when
    the email is [None]. *)
Theorem identifier_cells d v :
  dict_find "id" d = Some v ->
  exists r,
    customer_row (PDict d) = ([], Ok r)
    /\ Test r = "Found Customer"
    /\ (Status r = "PASS" <-> truthy v = true)
    /\ (dict_find "email" d = None -> Result r = str v ++ " (No Email)")
    /\ (dict_find "email" d = Some PNone -> Result r = str v ++ " (None)")
    /\ (forall e, dict_find "email" d = Some (PStr e) ->
                  Result r = str v ++ " (" ++ e ++ ")").
Proof.
  intros Hid. eexists. split.
  { unfold customer_row, py_getitem, py_get, dict_get. rewrite Hid. reflexivity. }
  cbn [Test Status Result]. split; [reflexivity |]. split.
  { destruct (truthy v); split; congruence. }
  split; [| split]; [intros -> | intros -> | intros e ->]; reflexivity.
Qed.

(** X18: an entry that is not a dictionary is one row with the cell [-],
    the same in the file and in the table, and its status is [PASS] only
    for the value [True] itself: any other value, truthy or not, is a
    [FAIL] followed by the value. *)
Theorem plain_entry_row test data :
  (forall d, data <> PDict d) ->
  exists r,
    save_entry test data = ([], Ok [r])
    /\ display_entry test data = ([], Ok [r])
    /\ Test r = test /\ Result r = "-"
    /\ (Status r = "PASS" <-> data = PBool true)
    /\ (data <> PBool true -> Status r = "FAIL (" ++ str data ++ ")").
Proof.
  intros Hnd.
  destruct data as [| [|] | z | s | l | d]; try (now contradiction (Hnd d));
    eexists; (split; [reflexivity |]); (split; [reflexivity |]);
    (split; [reflexivity |]); (split; [reflexivity |]); cbn [Status is_True].
  2: { split; [split; reflexivity | intros H; now contradiction H]. }
  all: split; [split; intros H; discriminate H | reflexivity].
Qed.

(* ================================================================= *)
(** * More on the file and on identifiers *)

Lemma row_fields_inj r1 r2 : Csv.row_fields r1 = Csv.row_fields r2 -> r1 = r2.
Proof.
  destruct r1, r2. unfold Csv.row_fields. cbn [Test Result Status].
  now intros [= -> -> ->].
Qed.

Lemma map_row_fields_inj rows :
  forall rows', map Csv.row_fields rows = map Csv.row_fields rows' -> rows = rows'.
Proof.
  induction rows as [| r rows IH]; intros [| r' rows'] H; try discriminate;
    [reflexivity |].
  cbn [map] in H.
  assert (Hr : Csv.row_fields r = Csv.row_fields r') by congruence.
  assert (Hrest : map Csv.row_fields rows = map Csv.row_fields rows') by congruence.
  f_equal; [now apply row_fields_inj | now apply IH].
Qed.

(** X19: the file determines the rows: two lists of rows that give the
    same file text are equal, whatever the length of their cells; and
    when no cell is longer than the field size limit, the records the
    reader gives for the file are its header and its rows, one record
    for each. *)
Theorem file_text_injective rows rows' :
  (Csv.file_text rows = Csv.file_text rows' -> rows = rows')
  /\ (forallb (Csv.row_fits Csv.field_size_limit) rows = true ->
      Csv.reader_rows Csv.field_size_limit (Csv.file_text rows)
      = Some (Csv.fieldnames :: map Csv.row_fields rows)).
Proof.
  split.
  - (* read both with a limit that the cells of both respect *)
    intros H.
    set (limit := N.max 6 (N.max (widest rows) (widest rows'))).
    assert (H6 : (6 <= limit)%N) by (unfold limit; lia).
    pose proof (CsvFacts.reader_rows_file_text limit rows H6
                  (CsvFacts.widest_fits rows limit ltac:(unfold limit; lia))) as H1.
    pose proof (CsvFacts.reader_rows_file_text limit rows' H6
                  (CsvFacts.widest_fits rows' limit ltac:(unfold limit; lia))) as H2.
    rewrite H, H2 in H1. injection H1 as H1.
    symmetry. now apply map_row_fields_inj.
  - apply CsvFacts.reader_rows_file_text. unfold Csv.field_size_limit. lia.
Qed.

Lemma read_format_nonneg n :
  (0 <= n)%Z ->
  exists d, NilEmpty.uint_of_string (format_010 n) = Some d
            /\ N.of_uint d = Z.abs_N n.
Proof.
  intros H. unfold format_010. destruct (Z.ltb_spec n 0); [lia |].
  destruct (Digits.read_zeros
              (10 - String.length (NilZero.string_of_uint (N.to_uint (Z.abs_N n))))
              _ _ (Digits.read_digits (Z.abs_N n))) as (d & E & V).
  exists d. split; [exact E |]. now rewrite V, DecimalN.Unsigned.of_to.
Qed.

Lemma read_format_neg n :
  (n < 0)%Z ->
  exists s d, format_010 n = String "-" s
              /\ NilEmpty.uint_of_string s = Some d
              /\ N.of_uint d = Z.abs_N n.
Proof.
  intros H. unfold format_010. destruct (Z.ltb_spec n 0); [| lia].
  destruct (Digits.read_zeros
              (9 - String.length (NilZero.string_of_uint (N.to_uint (Z.abs_N n))))
              _ _ (Digits.read_digits (Z.abs_N n))) as (d & E & V).
  eexists; exists d. split; [reflexivity |]. split; [exact E |].
  now rewrite V, DecimalN.Unsigned.of_to.
Qed.

(** X20: the padded format never merges two numbers: equal texts come from
    equal numbers, negative and over-long ones included, so different
    bounds of a scan give different customer ids. *)
Theorem format_010_injective a b :
  format_010 a = format_010 b <-> a = b.
Proof.
  split; [| now intros ->]. intros H.
  destruct (Z.ltb_spec a 0) as [Ha | Ha], (Z.ltb_spec b 0) as [Hb | Hb].
  - destruct (read_format_neg a Ha) as (sa & da & Ea & Ra & Va).
    destruct (read_format_neg b Hb) as (sb & db & Eb & Rb & Vb).
    rewrite Ea, Eb in H. injection H as H. subst sb.
    rewrite Ra in Rb. injection Rb as <-. lia.
  - destruct (read_format_neg a Ha) as (sa & da & Ea & Ra & _).
    destruct (read_format_nonneg b Hb) as (db & Rb & _).
    rewrite <- H, Ea in Rb. cbn [NilEmpty.uint_of_string] in Rb.
    rewrite Ra in Rb. discriminate.
  - destruct (read_format_nonneg a Ha) as (da & Ra & _).
    destruct (read_format_neg b Hb) as (sb & db & Eb & Rb & _).
    rewrite H, Eb in Ra. cbn [NilEmpty.uint_of_string] in Ra.
    rewrite Rb in Ra. discriminate.
  - destruct (read_format_nonneg a Ha) as (da & Ra & Va).
    destruct (read_format_nonneg b Hb) as (db & Rb & Vb).
    rewrite H, Rb in Ra. injection Ra as <-. lia.
Qed.

(* ================================================================= *)
(** * Sample runs, continued *)


Lemma negative_delay_sample :
  accepted negative_delay_options = true
  /\ exists message,
       main sample_transport "20240101_120000" sample_join "menu" no_faults 9
         negative_delay_options
       = ([Console message], Raise sleep_refused).
Proof.
  split; [reflexivity |].
  apply (negative_delay_aborts sample_transport "20240101_120000" sample_join
           "menu" no_faults 9 negative_delay_options); try reflexivity;
    [discriminate | unfold sleep_range; cbn; lia].
Defined.

Lemma restricted_mode_sample :
  exists message o1,
    test_list_charges sample_transport "sk_test_123"
    = ([Http (charges_request "sk_test_123")], Ok o1)
    /\ dispatch sample_transport no_faults (with_mode "restricted" full_options)
       = ([Console message; Http (charges_request "sk_test_123")],
          Ok [("list_charges", o1)]).
Proof.
  apply (list_charges_modes_report sample_transport no_faults
           (with_mode "restricted" full_options) "sk_test_123");
    [right; reflexivity | reflexivity | discriminate].
Defined.

Lemma pubkey_mode_sample :
  exists o2,
    test_publishable_key sample_transport "pk_test_123"
    = ([Http (tokens_request "pk_test_123")], Ok o2)
    /\ dispatch sample_transport no_faults pubkey_options
       = ([Console "Testing Publishable Key by creating a test token...";
           Http (tokens_request "pk_test_123")],
          Ok [("test_publishable_key", o2)]).
Proof.
  apply (pubkey_mode_report sample_transport no_faults pubkey_options
           "pk_test_123");
    try reflexivity. discriminate.
Defined.

Lemma custom_mode_sample :
  exists o3,
    test_custom_endpoint sample_transport "sk_test_123" "https://example.test/health"
    = ([Http (mk_request "GET" "https://example.test/health"
                [("Authorization", "Bearer sk_test_123")] [])], Ok o3)
    /\ dispatch sample_transport no_faults custom_options
       = ([Console "Testing custom endpoint https://example.test/health...";
           Http (mk_request "GET" "https://example.test/health"
                   [("Authorization", "Bearer sk_test_123")] [])],
          Ok [("test_custom_endpoint", o3)]).
Proof.
  apply (custom_mode_report sample_transport no_faults custom_options
           "sk_test_123" "https://example.test/health");
    try reflexivity; discriminate.
Defined.

(** Before a console that refuses the text it is given, the same run
    sends nothing, and a run with a mode that is not one of the six ends
    with the error of the console, not by leaving. *)
Example custom_mode_refused :
  dispatch sample_transport refusing_console custom_options
  = ([], Raise (mk_exn MarkupError "closing tag does not match any open tag")).
Proof. reflexivity. Qed.

Example unknown_mode_refused :
  main sample_transport "20240101_120000" sample_join "menu" refusing_console 3
    (with_mode "[/x]" custom_options)
  = ([], Raise (mk_exn MarkupError "closing tag does not match any open tag")).
Proof. reflexivity. Qed.


Lemma no_results_sample :
  Forall (fun e => no_results_message e = false)
    (trace (main sample_transport "20240101_120000" sample_join "menu" no_faults
              5 full_options)).
Proof.
  apply (no_results_unreachable sample_transport "20240101_120000" sample_join
           "menu" no_faults 5 full_options). discriminate.
Defined.

Lemma publishable_declined_sample :
  exists o,
    test_publishable_key declining_transport "pk_test_123"
    = ([Http (tokens_request "pk_test_123")], Ok o)
    /\ succeeded o = false
    /\ payload o = None
    /\ error o = Some (PDict [("message", PStr "Your card was declined.")]).
Proof.
  apply (publishable_error_message declining_transport "pk_test_123" declined);
    [reflexivity | discriminate].
Defined.



Lemma identifier_cells_sample :
  exists r,
    customer_row (PDict [("id", PStr "cus_0000000100"); ("email", PNone)])
    = ([], Ok r)
    /\ Status r = "PASS"
    /\ Result r = "cus_0000000100 (None)".
Proof.
  destruct (identifier_cells [("id", PStr "cus_0000000100"); ("email", PNone)]
              (PStr "cus_0000000100") eq_refl)
    as (r & H1 & _ & H2 & _ & H3 & _).
  exists r. split; [exact H1 |]. split; [now apply H2 | now apply H3].
Defined.

Lemma plain_entry_sample :
  exists r,
    save_entry "check" (PInt 1) = ([], Ok [r])
    /\ display_entry "check" (PInt 1) = ([], Ok [r])
    /\ Status r = "FAIL (1)".
Proof.
  destruct (plain_entry_row "check" (PInt 1)) as (r & H1 & H2 & _ & _ & _ & H3);
    [discriminate |].
  exists r. split; [exact H1 |]. split; [exact H2 |]. apply H3. discriminate.
Defined.
